(** * Telemetry backend (backend/app.py): ingest, store, query

    A shallow embedding of the Flask backend: the JSON payloads it receives
    as Python values, the [telemetry] table of the SQLite database as the
    list of its rows in rowid order, and the request handlers as functions
    on the server state (the table, the log of emitted socket events, and
    whether a connection left open holds the write lock of the database). *)

From Stdlib Require Import ZArith NArith List String Ascii Bool Lia Floats DecimalString.
From Stdlib Require Import Sorting.Sorted Sorting.Permutation.
Import ListNotations.
Open Scope Z_scope.
Open Scope string_scope.
Open Scope list_scope.
Set Warnings "-register-all".

(** ** Python values *)

Module Py.

(** What [request.get_json()] hands to the handler: [json.loads] yields
    [None], [bool], [int], [float], [str], [list] and [dict]. A [dict] is
    kept as the list of its items in insertion order (its keys are distinct). *)
Inductive pyval : Type :=
| PNone
| PBool (b : bool)
| PInt (n : Z)
| PFloat (f : float)
| PStr (s : string)
| PList (l : list pyval)
| PDict (d : list (string * pyval)).

(** The exceptions the handlers can meet. [ProgrammingError] is what
    sqlite3 raises for a parameter of an unsupported type ([InterfaceError]
    before Python 3.11), [OperationalError] what it raises when the
    database is locked; [ValueError] and [OverflowError] are also what the
    arithmetic of times raises. *)
Inductive exn : Type :=
| AttributeError
| OverflowError
| ProgrammingError
| IntegrityError
| OperationalError
| ValueError.

Inductive result (A : Type) : Type :=
| Ok (a : A)
| Raise (e : exn).
Arguments Ok {A} a.
Arguments Raise {A} e.

Definition bind {A B : Type} (m : result A) (k : A -> result B) : result B :=
  match m with
  | Ok a => k a
  | Raise e => Raise e
  end.

(** [bool(v)]: the truth value tested by [not v]. *)
Definition truthy (v : pyval) : bool :=
  match v with
  | PNone => false
  | PBool b => b
  | PInt n => negb (n =? 0)%Z
  | PFloat f => negb (PrimFloat.eqb f 0%float)
  | PStr s => negb (s =? "")%string
  | PList l => match l with [] => false | _ :: _ => true end
  | PDict d => match d with [] => false | _ :: _ => true end
  end.

Fixpoint dict_get (d : list (string * pyval)) (k : string) : option pyval :=
  match d with
  | [] => None
  | (k', v) :: d' => if (k' =? k)%string then Some v else dict_get d' k
  end.

(** [o.get(k, default)]; only a [dict] has the method. *)
Definition get (o : pyval) (k : string) (default : pyval) : result pyval :=
  match o with
  | PDict d => Ok (match dict_get d k with Some v => v | None => default end)
  | _ => Raise AttributeError
  end.

(** [o.items()]; only a [dict] has the method. *)
Definition items (o : pyval) : result (list (string * pyval)) :=
  match o with
  | PDict d => Ok d
  | _ => Raise AttributeError
  end.

End Py.
Export Py.

Declare Scope result_scope.
Delimit Scope result_scope with result.
Notation "x <- m ;; k" := (bind m (fun x => k))
  (at level 61, m at next level, right associativity) : result_scope.

(** ** SQLite values and the columns of the table *)

Module Sqlite.

(** Storage classes a JSON-born parameter can take (no BLOB arises). *)
Inductive sqlval : Type :=
| SNull
| SInteger (n : Z)
| SReal (f : float)
| SText (s : string).

(** SQLite's conversions between text and floating point (its [%!.15g]
    rendering and its numeric-literal reader) belong to the database
    library, not to the repository: they are taken as parameters. *)
Record conversions : Type := {
  real_to_text : float -> string;
  text_to_real : string -> option float
}.

(** The range of [sqlite3_bind_int64]. *)
Definition fits_int64 (n : Z) : bool :=
  ((- 2 ^ 63 <=? n) && (n <? 2 ^ 63))%Z.
Arguments fits_int64 : simpl never.

(** Binding of a Python object to a [?] placeholder by the sqlite3 module:
    a [bool] is an [int]; an [int] must fit in 64 bits signed; a NaN is
    bound as NULL; [list] and [dict] have no adapter. *)
Definition bind_param (v : pyval) : result sqlval :=
  match v with
  | PNone => Ok SNull
  | PBool b => Ok (SInteger (if b then 1 else 0))
  | PInt n =>
      if fits_int64 n then Ok (SInteger n) else Raise OverflowError
  | PFloat f => if PrimFloat.is_nan f then Ok SNull else Ok (SReal f)
  | PStr s => Ok (SText s)
  | PList _ => Raise ProgrammingError
  | PDict _ => Raise ProgrammingError
  end.

(** A 64-bit integer forced into floating point (round to nearest even). *)
Definition real_of_int (n : Z) : float :=
  SF2Prim (binary_normalize 53 1024 n 0 false).

Definition text_of_int (n : Z) : string :=
  NilZero.string_of_int (Z.to_int n).

(** A column declared [TEXT NOT NULL]: numbers are stored as their text. *)
Definition text_not_null (cv : conversions) (v : sqlval) : result string :=
  match v with
  | SNull => Raise IntegrityError
  | SInteger n => Ok (text_of_int n)
  | SReal f => Ok (real_to_text cv f)
  | SText s => Ok s
  end.

(** A real as a column of REAL affinity gives it back. A real without
    fraction is kept as an integer in the file and made a real again when
    it is read: the value is the same, but a negative zero comes back as
    zero. *)
Definition stored_real (f : float) : float :=
  if PrimFloat.eqb f 0%float then 0%float else f.

(** A column declared [REAL NOT NULL]: integers become reals, text that
    reads as a number becomes that number, other text is stored as text. *)
Definition real_not_null (cv : conversions) (v : sqlval) : result sqlval :=
  match v with
  | SNull => Raise IntegrityError
  | SInteger n => Ok (SReal (real_of_int n))
  | SReal f => Ok (SReal (stored_real f))
  | SText s =>
      Ok (match text_to_real cv s with
          | Some f => SReal (stored_real f)
          | None => SText s
          end)
  end.

End Sqlite.
Export Sqlite.

(** ** The backend *)

(** A row of [telemetry]. [id] is the position in the table and
    [created_at] is never read. [timestamp] and [signal_name] are declared
    [TEXT NOT NULL] and hold text; [value] is declared [REAL NOT NULL]. *)
Record row : Type := {
  timestamp : string;
  signal_name : string;
  value : sqlval
}.

(** [{"timestamp": ..., "value": ...}], an element of a signal's series. *)
Record point : Type := {
  point_timestamp : string;
  point_value : sqlval
}.

(** The [data] dict of [get_recent_telemetry], in insertion order. *)
Definition series : Type := list (string * list point).

(** The table, the events handed to [socketio.emit], and whether the
    write lock of the database is held by a connection that an exception
    in [store_telemetry] left open (it is neither committed nor closed, and
    keeps its transaction until the interpreter collects it). *)
Record state : Type := {
  table : list row;
  emitted : list (string * pyval);
  locked : bool
}.

Inductive body : Type :=
| StatusSuccess
| ErrorInvalidPayload
| ErrorMessage (e : exn)
| Telemetry (data : series)
| Signals (names : list string)
| StatusHealthy.

Definition response : Type := (body * Z)%type.

(** [init_db]: [CREATE TABLE IF NOT EXISTS] makes an empty table in a new
    file and leaves an existing one as it is. *)
Definition init_db (file : option (list row)) : list row :=
  match file with
  | Some rows => rows
  | None => []
  end.

Section Store.

Variable cv : conversions.

Local Open Scope result_scope.

(** One [cursor.execute("INSERT ...", (timestamp, signal_name, value))]:
    the three parameters are bound in order, then the row is built under
    the column declarations. *)
Definition execute_insert (timestamp signal_name value : pyval) : result row :=
  t <- bind_param timestamp ;;
  n <- bind_param signal_name ;;
  v <- bind_param value ;;
  t' <- text_not_null cv t ;;
  n' <- text_not_null cv n ;;
  v' <- real_not_null cv v ;;
  Ok {| timestamp := t'; signal_name := n'; value := v' |}.

(** Whether the three parameters bind. A parameter that does not bind
    raises before the statement is stepped. *)
Definition binds (timestamp signal_name value : pyval) : bool :=
  match bind_param timestamp, bind_param signal_name, bind_param value with
  | Ok _, Ok _, Ok _ => true
  | _, _, _ => false
  end.

(** [cursor.execute] on a database whose write lock another connection may
    hold ([busy]): the parameters are bound first; the step then needs the
    lock, and gives up with "database is locked" when it is taken. *)
Definition execute (busy : bool) (timestamp signal_name value : pyval)
    : result row :=
  if busy && binds timestamp signal_name value then Raise OperationalError
  else execute_insert timestamp signal_name value.

(** The [for] loop of [store_telemetry]. [pending] holds the rows of the
    open transaction and [holds] tells whether this connection has the
    write lock: it takes it at the first statement it steps, and keeps it
    whatever comes of the statement. *)
Fixpoint insert_items (busy : bool) (timestamp : pyval)
    (items : list (string * pyval)) (holds : bool) (pending : list row)
    : result (list row) * bool :=
  match items with
  | [] => (Ok pending, holds)
  | (signal_name, value) :: rest =>
      let holds :=
        holds || (negb busy && binds timestamp (PStr signal_name) value) in
      match execute busy timestamp (PStr signal_name) value with
      | Ok r => insert_items busy timestamp rest holds (pending ++ [r])
      | Raise e => (Raise e, holds)
      end
  end.

(** [store_telemetry] on the table [db], where [busy] tells whether a
    connection left open holds the write lock; the second component tells
    it of the database afterwards. The rows reach the table at
    [conn.commit()]. An exception in the loop reaches neither [commit] nor
    [close]: the rows are lost and the connection stays open, with the
    lock if it has it. *)
Definition store_telemetry (timestamp signals : pyval) (busy : bool)
    (db : list row) : result (list row) * bool :=
  match items signals with
  | Raise e => (Raise e, busy)
  | Ok its =>
      match insert_items busy timestamp its false [] with
      | (Ok pending, _) => (Ok (db ++ pending), busy)
      | (Raise e, holds) => (Raise e, busy || holds)
      end
  end.

End Store.

(** [ORDER BY key ASC] under the BINARY collation. The rows come in rowid
    order and each is placed before the first row whose key is not smaller:
    equal keys stay in rowid order, as in the index on the key, whose
    entries are ordered by key and then by rowid. *)
Fixpoint insert_by {A : Type} (key : A -> string) (x : A) (sorted : list A)
    : list A :=
  match sorted with
  | [] => [x]
  | y :: rest =>
      if (key x <=? key y)%string then x :: sorted
      else y :: insert_by key x rest
  end.

Definition order_by {A : Type} (key : A -> string) (rows : list A) : list A :=
  fold_right (insert_by key) [] rows.

(** The order of two rows under [ORDER BY key ASC]. *)
Definition le_by {A : Type} (key : A -> string) (x y : A) : Prop :=
  (key x <=? key y)%string = true.

(** [SELECT timestamp, signal_name, value FROM telemetry
     WHERE timestamp >= ? ORDER BY timestamp ASC]. *)
Definition select_since (db : list row) (cutoff_time : string) : list row :=
  order_by timestamp
    (filter (fun r => (cutoff_time <=? timestamp r)%string) db).

(** [k in data]. *)
Fixpoint contains (data : series) (k : string) : bool :=
  match data with
  | [] => false
  | (k', _) :: rest => (k' =? k)%string || contains rest k
  end.

(** [data[k] = []]. *)
Fixpoint setitem_empty (data : series) (k : string) : series :=
  match data with
  | [] => [(k, [])]
  | (k', l) :: rest =>
      if (k' =? k)%string then (k', []) :: rest
      else (k', l) :: setitem_empty rest k
  end.

(** [data[k].append(p)]. *)
Fixpoint append_at (data : series) (k : string) (p : point) : series :=
  match data with
  | [] => []
  | (k', l) :: rest =>
      if (k' =? k)%string then (k', l ++ [p]) :: rest
      else (k', l) :: append_at rest k p
  end.

Definition point_of (r : row) : point :=
  {| point_timestamp := timestamp r; point_value := value r |}.

(** The body of the grouping loop. *)
Definition group_step (data : series) (r : row) : series :=
  let data :=
    if negb (contains data (signal_name r)) then
      setitem_empty data (signal_name r)
    else data in
  append_at data (signal_name r) (point_of r).

(** [get_recent_telemetry]; [cutoff_time] is the text computed from the
    clock and [hours] on its first line. *)
Definition get_recent_telemetry (db : list row) (cutoff_time : string)
    : series :=
  let rows := select_since db cutoff_time in
  fold_left group_step rows [].

(** [SELECT DISTINCT]: each name once, at its first occurrence. *)
Fixpoint distinct (names : list string) : list string :=
  match names with
  | [] => []
  | n :: rest =>
      n :: filter (fun m => negb (m =? n)%string) (distinct rest)
  end.

(** [SELECT DISTINCT signal_name FROM telemetry ORDER BY signal_name]. *)
Definition select_distinct_signal_names (db : list row) : list string :=
  order_by (fun n => n) (distinct (map signal_name db)).

(** The grouping as the specification words it: the signal names in the
    order of their first row, each with the points of its rows, in the
    order of the rows. *)
Definition rows_of (k : string) (rows : list row) : list row :=
  filter (fun r => (signal_name r =? k)%string) rows.

Definition grouped (rows : list row) : series :=
  map (fun k => (k, map point_of (rows_of k rows)))
      (distinct (map signal_name rows)).

Section Handlers.

Variable cv : conversions.

Local Open Scope result_scope.

(** [POST /api/telemetry]. *)
Definition receive_telemetry (payload : pyval) (st : state)
    : response * state :=
  match
    (timestamp <- get payload "timestamp" PNone ;;
     signals <- get payload "signals" (PDict []) ;;
     Ok (timestamp, signals))
  with
  | Raise e => ((ErrorMessage e, 500%Z), st)
  | Ok (timestamp, signals) =>
      if negb (truthy timestamp) || negb (truthy signals) then
        ((ErrorInvalidPayload, 400%Z), st)
      else
        match store_telemetry cv timestamp signals (locked st) (table st) with
        | (Ok db', lock) =>
            ((StatusSuccess, 200%Z),
             {| table := db';
                emitted := emitted st ++ [("telemetry_update", payload)];
                locked := lock |})
        | (Raise e, lock) =>
            ((ErrorMessage e, 500%Z),
             {| table := table st; emitted := emitted st; locked := lock |})
        end
  end.

(** [jsonify] writes the keys of an object in order. *)
Definition sort_keys (data : series) : series :=
  order_by fst data.

(** [GET /api/telemetry]. [cutoff_time] is what the first line of
    [get_recent_telemetry] comes to for the [hours] of the request: a
    text, or the exception of the arithmetic of times (an overflow for
    [hours] too large, a [ValueError] for a NaN). *)
Definition get_telemetry (cutoff_time : result string) (st : state)
    : response * state :=
  match cutoff_time with
  | Ok cutoff_time =>
      ((Telemetry (sort_keys (get_recent_telemetry (table st) cutoff_time)),
        200%Z), st)
  | Raise e => ((ErrorMessage e, 500%Z), st)
  end.

(** [GET /api/signals]. *)
Definition get_signals (st : state) : response * state :=
  ((Signals (select_distinct_signal_names (table st)), 200%Z), st).

(** [GET /health]. *)
Definition health (st : state) : response * state :=
  ((StatusHealthy, 200%Z), st).

Inductive request : Type :=
| PostTelemetry (payload : pyval)
| GetTelemetry (cutoff_time : result string)
| GetSignals
| GetHealth.

Definition handle (rq : request) (st : state) : response * state :=
  match rq with
  | PostTelemetry payload => receive_telemetry payload st
  | GetTelemetry cutoff_time => get_telemetry cutoff_time st
  | GetSignals => get_signals st
  | GetHealth => health st
  end.

(** The server state after a sequence of requests. *)
Definition run (rqs : list request) (st : state) : state :=
  fold_left (fun st rq => snd (handle rq st)) rqs st.

End Handlers.

(** The interpreter collects the connections left open: the transaction
    of the one that holds the write lock is rolled back and the lock is
    free again. It may do so at any moment; a request met in a locked state
    is one it did not precede. *)
Definition collect (st : state) : state :=
  {| table := table st; emitted := emitted st; locked := false |}.

(** ** Notions the properties are stated with *)

(** [data.get(k, [])]: the points under a signal name. *)
Fixpoint points_of (data : series) (k : string) : list point :=
  match data with
  | [] => []
  | (k', l) :: rest => if (k' =? k)%string then l else points_of rest k
  end.

(** A field of a JSON object, with the default of [dict.get]. *)
Definition field (d : list (string * pyval)) (k : string) (default : pyval)
    : pyval :=
  match dict_get d k with
  | Some v => v
  | None => default
  end.

(** A JSON number. *)
Definition is_number (v : pyval) : bool :=
  match v with
  | PInt _ | PFloat _ => true
  | _ => false
  end.

(** A value a [NOT NULL] column takes: it binds, and not as NULL. *)
Definition storable (v : pyval) : bool :=
  match bind_param v with
  | Ok SNull => false
  | Ok _ => true
  | Raise _ => false
  end.

(** What the [value] column holds for a number. *)
Definition as_real (v : pyval) : sqlval :=
  match v with
  | PFloat f => SReal (stored_real f)
  | PInt n => SReal (real_of_int n)
  | _ => SNull
  end.

(** A number the [value] column takes: a float other than NaN, or an
    integer of 64 bits signed. *)
Definition valid_number (v : pyval) : bool :=
  is_number v && storable v.

(** The row a batch at [ts] stores for the item [kv] of its signals. *)
Definition row_of_number (ts : string) (kv : string * pyval) : row :=
  {| timestamp := ts; signal_name := fst kv; value := as_real (snd kv) |}.

(** The request body [{"timestamp": ts, "signals": signals}]. *)
Definition batch (ts : string) (signals : list (string * pyval)) : pyval :=
  PDict [("timestamp", PStr ts); ("signals", PDict signals)].

Definition event_of (payload : pyval) : string * pyval :=
  ("telemetry_update", payload).

Definition empty_state : state :=
  {| table := []; emitted := []; locked := false |}.

(** A request that is not an ingestion. *)
Definition is_read (rq : request) : bool :=
  match rq with
  | PostTelemetry _ => false
  | _ => true
  end.

(** The status code of an answer, and the state it leaves. *)
Definition code_of (out : response * state) : Z := snd (fst out).
Definition state_of (out : response * state) : state := snd out.

(** The concrete runs below store no float in a text column and no numeric
    literal as text in the [value] column; for them the two conversions of
    the database library are fixed to constants. *)
Definition constant_conversions : conversions :=
  {| real_to_text := fun _ => ""; text_to_real := fun _ => None |}.

(** A batch, a table and a series of requests for the concrete runs. *)
Definition sample_signals : list (string * pyval) :=
  [("a", PFloat 1.5); ("b", PInt 2)].

Definition sample_table : list row :=
  [{| timestamp := "2023-12-31T23:00:00"; signal_name := "b";
      value := SReal 0.5 |};
   {| timestamp := "2999-01-01T00:00:00"; signal_name := "c";
      value := SReal 9 |};
   {| timestamp := "2023-12-31T23:00:00"; signal_name := "a";
      value := SReal 7 |}].

Definition sample_state : state :=
  {| table := sample_table; emitted := []; locked := false |}.


(** ** Times and their text *)

(** A naive [datetime]: the fields Python compares, in this order. *)
Record datetime : Type := {
  year : N;
  month : N;
  day : N;
  hour : N;
  minute : N;
  second : N;
  microsecond : N
}.

(** The ranges the [datetime] constructor enforces (the length of the
    month apart). *)
Definition in_range (d : datetime) : bool :=
  ((1 <=? year d) && (year d <=? 9999) &&
   (1 <=? month d) && (month d <=? 12) &&
   (1 <=? day d) && (day d <=? 31) &&
   (hour d <? 24) && (minute d <? 60) && (second d <? 60) &&
   (microsecond d <? 1000000))%N.

Definition digit (n : N) : ascii := ascii_of_N (48 + n).

(** ["%0wd" % n] for [n] below [10 ^ w]: the [w] decimal digits of [n]. *)
Fixpoint digits (w : nat) (n : N) : string :=
  match w with
  | O => ""
  | S w' => String (digit ((n / 10 ^ N.of_nat w') mod 10)) (digits w' n)
  end.

(** [".ffffff"], left out when the microsecond is zero. *)
Definition fraction (d : datetime) : string :=
  if (microsecond d =? 0)%N then ""
  else ("." ++ digits 6 (microsecond d))%string.

(** [d.isoformat()]: ["YYYY-MM-DDTHH:MM:SS"] and the fraction. *)
Definition isoformat (d : datetime) : string :=
  (digits 4 (year d) ++ "-" ++ digits 2 (month d) ++ "-" ++
   digits 2 (day d) ++ "T" ++ digits 2 (hour d) ++ ":" ++
   digits 2 (minute d) ++ ":" ++ digits 2 (second d) ++ fraction d)%string.

(** The comparison of two naive [datetime]s: field by field. *)
Definition then_compare (c : comparison) (rest : comparison) : comparison :=
  match c with
  | Eq => rest
  | _ => c
  end.

Definition datetime_compare (a b : datetime) : comparison :=
  then_compare (year a ?= year b)%N
  (then_compare (month a ?= month b)%N
  (then_compare (day a ?= day b)%N
  (then_compare (hour a ?= hour b)%N
  (then_compare (minute a ?= minute b)%N
  (then_compare (second a ?= second b)%N
                (microsecond a ?= microsecond b)%N))))).

(** ** The producer *)

(** The [signals] dict of the producer's loop, from its five readings. *)
Definition producer_signals (sine cosine noise walk damped : float)
    : list (string * pyval) :=
  [("sine_wave", PFloat sine);
   ("cosine_wave", PFloat cosine);
   ("random_noise", PFloat noise);
   ("random_walk", PFloat walk);
   ("damped_oscillation", PFloat damped)].

(** The [payload] the producer posts at the time [now]. *)
Definition producer_payload (now : datetime)
    (sine cosine noise walk damped : float) : pyval :=
  PDict [("timestamp", PStr (isoformat now));
         ("signals", PDict (producer_signals sine cosine noise walk damped))].

(** ** Further notions *)

(** The rows the loop of [store_telemetry] stages, and what it commits,
    when no other connection holds the write lock. *)
Fixpoint stage_items (cv : conversions) (timestamp : pyval)
    (items : list (string * pyval)) (pending : list row)
    : result (list row) :=
  match items with
  | [] => Ok pending
  | (signal_name, value) :: rest =>
      (r <- execute_insert cv timestamp (PStr signal_name) value ;;
       stage_items cv timestamp rest (pending ++ [r]))%result
  end.

Definition store_free (cv : conversions) (timestamp signals : pyval)
    (db : list row) : result (list row) :=
  (its <- items signals ;;
   pending <- stage_items cv timestamp its [] ;;
   Ok (db ++ pending))%result.

(** Whether the first statement of the loop is stepped: a connection
    whose loop then raises is left open with the write lock. *)
Definition first_binds (timestamp : pyval) (items : list (string * pyval))
    : bool :=
  match items with
  | [] => false
  | (signal_name, value) :: _ => binds timestamp (PStr signal_name) value
  end.

Definition leaves_lock (timestamp signals : pyval) : bool :=
  match signals with
  | PDict its => first_binds timestamp its
  | _ => false
  end.

(** Why a [NOT NULL] column refuses a value: the exception of its binding,
    or the constraint when it binds as NULL. *)
Definition refusal (v : pyval) : option exn :=
  match bind_param v with
  | Raise e => Some e
  | Ok SNull => Some IntegrityError
  | Ok _ => None
  end.

(** What an observer that stores every [telemetry_update] it receives ends
    with: each event's timestamp and signals, stored as the backend does
    when the write lock is free. *)
Definition apply_event (cv : conversions) (db : list row)
    (ev : string * pyval) : list row :=
  match
    (ts <- get (snd ev) "timestamp" PNone ;;
     sg <- get (snd ev) "signals" (PDict []) ;;
     fst (store_telemetry cv ts sg false db))%result
  with
  | Ok db' => db'
  | Raise _ => db
  end.

Definition replay (cv : conversions) (events : list (string * pyval))
    : list row :=
  fold_left (apply_event cv) events [].

(** The requests that post the batches [bs], each a timestamp with its
    signals, one after the other. *)
Definition posts (bs : list (string * list (string * pyval))) : list request :=
  map (fun b => PostTelemetry (batch (fst b) (snd b))) bs.

(** A batch of numbers under distinct names, [k] among them, stamped with a
    text that is not before the cutoff. *)
Definition counted_batch (cutoff_time k : string)
    (b : string * list (string * pyval)) : Prop :=
  fst b <> "" /\
  NoDup (map fst (snd b)) /\
  forallb (fun kv => valid_number (snd kv)) (snd b) = true /\
  In k (map fst (snd b)) /\
  (cutoff_time <=? fst b)%string = true.

(** ** The order on text: SQLite's BINARY collation *)

Section TextOrder.

Local Open Scope string_scope.

Lemma ascii_compare_refl (a : ascii) : Ascii.compare a a = Eq.
Proof. unfold Ascii.compare. apply N.compare_refl. Qed.

Lemma ascii_compare_lt_trans (a b c : ascii) :
  Ascii.compare a b = Lt -> Ascii.compare b c = Lt -> Ascii.compare a c = Lt.
Proof.
  unfold Ascii.compare. rewrite !N.compare_lt_iff. apply N.lt_trans.
Qed.

Lemma compare_refl (s : string) : (s ?= s) = Eq.
Proof.
  induction s as [|a s IH]; simpl; [reflexivity|].
  now rewrite ascii_compare_refl.
Qed.

Lemma compare_lt_trans (s1 s2 s3 : string) :
  (s1 ?= s2) = Lt -> (s2 ?= s3) = Lt -> (s1 ?= s3) = Lt.
Proof.
  revert s2 s3.
  induction s1 as [|a s1 IH]; intros [|b s2] [|c s3]; simpl;
    try discriminate; try reflexivity.
  destruct (Ascii.compare a b) eqn:Hab; try discriminate;
    destruct (Ascii.compare b c) eqn:Hbc; try discriminate; intros H1 H2.
  - apply Ascii.compare_eq_iff in Hab, Hbc. subst.
    rewrite ascii_compare_refl. eauto.
  - apply Ascii.compare_eq_iff in Hab. subst. now rewrite Hbc.
  - apply Ascii.compare_eq_iff in Hbc. subst. now rewrite Hab.
  - now rewrite (ascii_compare_lt_trans a b c).
Qed.

Lemma leb_refl (s : string) : (s <=? s) = true.
Proof. unfold String.leb. now rewrite compare_refl. Qed.

Lemma leb_trans (s1 s2 s3 : string) :
  (s1 <=? s2) = true -> (s2 <=? s3) = true -> (s1 <=? s3) = true.
Proof.
  unfold String.leb.
  destruct (s1 ?= s2) eqn:H12; try discriminate;
    destruct (s2 ?= s3) eqn:H23; try discriminate; intros _ _.
  - apply String.compare_eq_iff in H12. subst. now rewrite H23.
  - apply String.compare_eq_iff in H12. subst. now rewrite H23.
  - apply String.compare_eq_iff in H23. subst. now rewrite H12.
  - now rewrite (compare_lt_trans s1 s2 s3).
Qed.

Lemma leb_false_ltb (s1 s2 : string) :
  (s1 <=? s2) = false -> (s2 <? s1) = true.
Proof.
  unfold String.leb, String.ltb. rewrite (String.compare_antisym s2 s1).
  destruct (s1 ?= s2); simpl; congruence.
Qed.

Lemma ltb_leb (s1 s2 : string) : (s1 <? s2) = true -> (s1 <=? s2) = true.
Proof.
  unfold String.leb, String.ltb. destruct (s1 ?= s2); congruence.
Qed.

Lemma ltb_iff_leb_neq (s1 s2 : string) :
  (s1 <? s2) = true <-> (s1 <=? s2) = true /\ s1 <> s2.
Proof.
  unfold String.leb, String.ltb. split.
  - destruct (s1 ?= s2) eqn:H; try discriminate. intros _. split; auto.
    intros ->. now rewrite compare_refl in H.
  - intros [H Hne]. destruct (s1 ?= s2) eqn:Hc; try discriminate; auto.
    apply String.compare_eq_iff in Hc. contradiction.
Qed.

Lemma leb_false_leb (s1 s2 : string) :
  (s1 <=? s2) = false -> (s2 <=? s1) = true.
Proof. intros H. now apply ltb_leb, leb_false_ltb. Qed.

End TextOrder.

(** ** [ORDER BY]: a stable sort *)

Section OrderBy.

Context {A : Type}.
Variable key : A -> string.


Lemma insert_by_perm (x : A) (l : list A) :
  Permutation (insert_by key x l) (x :: l).
Proof.
  induction l as [|y l IH]; simpl; [reflexivity|].
  destruct (key x <=? key y)%string; [reflexivity|].
  rewrite IH. apply perm_swap.
Qed.

Lemma order_by_perm (l : list A) : Permutation (order_by key l) l.
Proof.
  induction l as [|x l IH]; simpl; [reflexivity|].
  rewrite insert_by_perm. now constructor.
Qed.

Lemma order_by_In (l : list A) (x : A) : In x (order_by key l) <-> In x l.
Proof.
  split; apply Permutation_in;
    [apply order_by_perm | symmetry; apply order_by_perm].
Qed.

Lemma insert_by_least (x : A) (l : list A) :
  Forall (le_by key x) l -> insert_by key x l = x :: l.
Proof.
  destruct l as [|y l]; simpl; [reflexivity|].
  intros H. inversion_clear H as [|? ? Hy _]. unfold le_by in Hy.
  now rewrite Hy.
Qed.

Lemma insert_by_sorted (x : A) (l : list A) :
  StronglySorted (le_by key) l -> StronglySorted (le_by key) (insert_by key x l).
Proof.
  induction 1 as [|y l Hl IH Hy]; simpl.
  - repeat constructor.
  - destruct (key x <=? key y)%string eqn:E.
    + constructor; [now constructor|].
      constructor; [exact E|].
      eapply Forall_impl; [|exact Hy].
      intros z Hz. unfold le_by in *. eapply leb_trans; eauto.
    + constructor; [exact IH|].
      eapply Permutation_Forall; [symmetry; apply insert_by_perm|].
      constructor; [|exact Hy].
      now apply leb_false_leb.
Qed.

Lemma order_by_sorted (l : list A) : StronglySorted (le_by key) (order_by key l).
Proof.
  induction l as [|x l IH]; simpl; [constructor|].
  now apply insert_by_sorted.
Qed.

(** A list that is already in order is left as it is. *)
Lemma order_by_of_sorted (l : list A) :
  StronglySorted (le_by key) l -> order_by key l = l.
Proof.
  induction 1 as [|x l Hl IH Hx]; simpl; [reflexivity|].
  rewrite IH. now apply insert_by_least.
Qed.

Lemma filter_insert_by (P : A -> bool) (x : A) (l : list A) :
  StronglySorted (le_by key) l ->
  filter P (insert_by key x l) =
  if P x then insert_by key x (filter P l) else filter P l.
Proof.
  induction 1 as [|y l Hl IH Hy]; simpl.
  - now destruct (P x).
  - destruct (key x <=? key y)%string eqn:E; simpl.
    + destruct (P x); [|reflexivity].
      symmetry. apply (insert_by_least x (filter P (y :: l))).
      apply Forall_forall. intros z Hz. apply filter_In in Hz as [Hz _].
      destruct Hz as [<-|Hz]; [exact E|].
      rewrite Forall_forall in Hy. unfold le_by in *.
      eapply leb_trans; [exact E|]. now apply Hy.
    + rewrite IH. destruct (P y), (P x); simpl; try reflexivity.
      now rewrite E.
Qed.

(** The selection of rows and their ordering commute. *)
Lemma filter_order_by (P : A -> bool) (l : list A) :
  filter P (order_by key l) = order_by key (filter P l).
Proof.
  induction l as [|x l IH]; simpl; [reflexivity|].
  rewrite filter_insert_by by apply order_by_sorted.
  rewrite IH. now destruct (P x).
Qed.

Lemma same_key_sorted (k : string) (l : list A) :
  Forall (fun x => key x = k) l -> StronglySorted (le_by key) l.
Proof.
  induction 1 as [|x l Hx Hl IH]; constructor; [exact IH|].
  eapply Forall_impl; [|exact Hl].
  intros y Hy. unfold le_by. rewrite Hx, Hy. apply leb_refl.
Qed.

(** Stability: rows of equal key keep the order they came in. *)
Lemma order_by_stable (k : string) (l : list A) :
  filter (fun x => (key x =? k)%string) (order_by key l) =
  filter (fun x => (key x =? k)%string) l.
Proof.
  rewrite filter_order_by. apply order_by_of_sorted.
  apply (same_key_sorted k). apply Forall_forall.
  intros x Hx. apply filter_In in Hx as [_ Hx]. now apply String.eqb_eq.
Qed.

Lemma insert_by_Add (r x : A) (s s' : list A) :
  StronglySorted (le_by key) s' -> Add r s s' ->
  Add r (insert_by key x s) (insert_by key x s').
Proof.
  intros Hs' Hadd. induction Hadd as [s|y t t' Hadd IH]; simpl.
  - destruct (key x <=? key r)%string eqn:E.
    + inversion_clear Hs' as [|? ? _ Hr].
      rewrite insert_by_least.
      * apply Add_cons, Add_head.
      * eapply Forall_impl; [|exact Hr].
        intros z Hz. unfold le_by in *. eapply leb_trans; eauto.
    + apply Add_head.
  - inversion_clear Hs' as [|? ? Ht' _].
    destruct (key x <=? key y)%string.
    + now apply Add_cons, Add_cons.
    + apply Add_cons. now apply IH.
Qed.

(** A row appended to the table shows up once in the ordered result, the
    other rows keeping their places relative to each other. *)
Lemma order_by_snoc_Add (l : list A) (r : A) :
  Add r (order_by key l) (order_by key (l ++ [r])).
Proof.
  induction l as [|x l IH]; simpl; [apply Add_head|].
  apply insert_by_Add; [apply order_by_sorted | exact IH].
Qed.

End OrderBy.

(** ** [SELECT DISTINCT] *)

Section Distinct.

Lemma distinct_In (l : list string) (x : string) :
  In x (distinct l) <-> In x l.
Proof.
  induction l as [|y l IH]; simpl; [tauto|].
  rewrite filter_In, IH, negb_true_iff, String.eqb_neq.
  destruct (string_dec y x) as [->|Hne]; [tauto|].
  split; [tauto|]. intros [H|H]; [tauto|]. right. split; congruence.
Qed.

Lemma distinct_NoDup (l : list string) : NoDup (distinct l).
Proof.
  induction l as [|y l IH]; simpl; constructor.
  - rewrite filter_In, negb_true_iff, String.eqb_neq. tauto.
  - now apply NoDup_filter.
Qed.

Lemma distinct_snoc (l : list string) (x : string) :
  distinct (l ++ [x]) =
  if existsb (String.eqb x) l then distinct l else distinct l ++ [x].
Proof.
  induction l as [|y l IH]; simpl; [reflexivity|].
  rewrite IH. destruct (String.eqb_spec x y) as [->|Hne]; simpl.
  - destruct (existsb (String.eqb y) l); [reflexivity|].
    rewrite filter_app. simpl. rewrite String.eqb_refl. simpl.
    now rewrite app_nil_r.
  - destruct (existsb (String.eqb x) l); [reflexivity|].
    rewrite filter_app. simpl.
    apply String.eqb_neq in Hne. now rewrite Hne.
Qed.

Lemma existsb_eqb_In (l : list string) (x : string) :
  existsb (String.eqb x) l = true <-> In x l.
Proof.
  rewrite existsb_exists. split.
  - intros (y & Hy & E). apply String.eqb_eq in E. now subst.
  - intros H. exists x. split; [exact H | apply String.eqb_refl].
Qed.

End Distinct.

(** ** The grouping loop *)

Section Grouping.

Lemma contains_In (data : series) (k : string) :
  contains data k = true <-> In k (map fst data).
Proof.
  induction data as [|[k' l] data IH]; simpl; [split; [discriminate|tauto]|].
  rewrite orb_true_iff, IH, String.eqb_eq. tauto.
Qed.

Lemma setitem_empty_fresh (data : series) (k : string) :
  ~ In k (map fst data) -> setitem_empty data k = data ++ [(k, [])].
Proof.
  induction data as [|[k' l] data IH]; simpl; [reflexivity|].
  intros H. destruct (String.eqb_spec k' k) as [->|_]; [tauto|].
  rewrite IH; tauto.
Qed.

Lemma append_at_fresh (data : series) (k : string) (l : list point) (p : point) :
  ~ In k (map fst data) ->
  append_at (data ++ [(k, l)]) k p = data ++ [(k, l ++ [p])].
Proof.
  induction data as [|[k' l'] data IH]; simpl.
  - now rewrite String.eqb_refl.
  - intros H. destruct (String.eqb_spec k' k) as [->|_]; [tauto|].
    rewrite IH; tauto.
Qed.

Lemma append_at_absent (data : series) (k : string) (p : point) :
  ~ In k (map fst data) -> append_at data k p = data.
Proof.
  induction data as [|[k' l'] data IH]; simpl; [reflexivity|].
  intros H. destruct (String.eqb_spec k' k) as [->|_]; [tauto|].
  rewrite IH; tauto.
Qed.

Lemma append_at_keyed (g : string -> list point) (ks : list string)
    (k : string) (p : point) :
  NoDup ks ->
  append_at (map (fun k' => (k', g k')) ks) k p =
  map (fun k' => (k', if (k' =? k)%string then g k' ++ [p] else g k')) ks.
Proof.
  induction 1 as [|k' ks Hk' Hks IH]; simpl; [reflexivity|].
  destruct (String.eqb_spec k' k) as [->|Hne].
  - f_equal. apply map_ext_in. intros k'' Hin.
    destruct (String.eqb_spec k'' k) as [->|_]; [contradiction|reflexivity].
  - now rewrite IH.
Qed.

Lemma rows_of_app (k : string) (l1 l2 : list row) :
  rows_of k (l1 ++ l2) = rows_of k l1 ++ rows_of k l2.
Proof. apply filter_app. Qed.

Lemma rows_of_absent (k : string) (l : list row) :
  ~ In k (map signal_name l) -> rows_of k l = [].
Proof.
  induction l as [|r l IH]; simpl; [reflexivity|].
  intros H. destruct (String.eqb_spec (signal_name r) k) as [E|_]; [tauto|].
  apply IH. tauto.
Qed.

Lemma grouped_keys (l : list row) :
  map fst (grouped l) = distinct (map signal_name l).
Proof. unfold grouped. rewrite map_map. apply map_id. Qed.

Lemma group_step_grouped (l : list row) (r : row) :
  group_step (grouped l) r = grouped (l ++ [r]).
Proof.
  unfold group_step.
  assert (K : In (signal_name r) (map fst (grouped l)) <->
              In (signal_name r) (map signal_name l)).
  { rewrite grouped_keys. apply distinct_In. }
  unfold grouped at 4. rewrite map_app. simpl. rewrite distinct_snoc.
  destruct (contains (grouped l) (signal_name r)) eqn:C; simpl.
  - apply contains_In, K in C.
    rewrite (proj2 (existsb_eqb_In _ _) C).
    unfold grouped. rewrite append_at_keyed by apply distinct_NoDup.
    apply map_ext. intros k. rewrite rows_of_app, map_app. simpl.
    destruct (String.eqb_spec k (signal_name r)) as [->|Hne].
    + now rewrite String.eqb_refl.
    + destruct (String.eqb_spec (signal_name r) k) as [E|_]; [congruence|].
      simpl. now rewrite app_nil_r.
  - assert (Hn : ~ In (signal_name r) (map signal_name l)).
    { intros H. apply K, contains_In in H. congruence. }
    destruct (existsb _ _) eqn:Ex; [now apply existsb_eqb_In in Ex|].
    rewrite setitem_empty_fresh, append_at_fresh by now rewrite K.
    rewrite map_app. simpl. unfold grouped. f_equal.
    + apply map_ext_in. intros k Hin. rewrite rows_of_app. simpl.
      destruct (String.eqb_spec (signal_name r) k) as [<-|_].
      * apply (proj1 (distinct_In _ _)) in Hin. contradiction.
      * now rewrite app_nil_r.
    + rewrite rows_of_app, rows_of_absent by exact Hn.
      simpl. now rewrite String.eqb_refl.
Qed.

(** The loop computes the grouping. *)
Lemma fold_group_step (rows : list row) :
  fold_left group_step rows [] = grouped rows.
Proof.
  induction rows as [|r rows IH] using rev_ind; [reflexivity|].
  rewrite fold_left_app. simpl. rewrite IH. apply group_step_grouped.
Qed.

Lemma get_recent_telemetry_grouped (db : list row) (cutoff_time : string) :
  get_recent_telemetry db cutoff_time = grouped (select_since db cutoff_time).
Proof. apply fold_group_step. Qed.

Lemma grouped_In (rows : list row) (k : string) (pts : list point) :
  In (k, pts) (grouped rows) <->
  In k (map signal_name rows) /\ pts = map point_of (rows_of k rows).
Proof.
  unfold grouped. rewrite in_map_iff. split.
  - intros (k' & E & Hin). inversion E; subst. split; [|reflexivity].
    now apply distinct_In.
  - intros [Hin ->]. exists k. split; [reflexivity|]. now apply distinct_In.
Qed.

End Grouping.

(** ** Storing a batch *)

Section Storing.

Variable cv : conversions.

Local Open Scope result_scope.

Lemma stage_items_pending (ts : pyval) (its : list (string * pyval))
    (pending : list row) :
  stage_items cv ts its pending =
  new <- stage_items cv ts its [] ;; Ok (pending ++ new).
Proof.
  revert pending. induction its as [|[k v] its IH]; intros pending; simpl.
  - now rewrite app_nil_r.
  - destruct (execute_insert cv ts (PStr k) v) as [r|e]; simpl; [|reflexivity].
    rewrite (IH (pending ++ [r])), (IH [r]).
    destruct (stage_items cv ts its []) as [new|e]; simpl; [|reflexivity].
    now rewrite <- app_assoc.
Qed.

Lemma stage_items_cons (ts : pyval) (k : string) (v : pyval)
    (its : list (string * pyval)) :
  stage_items cv ts ((k, v) :: its) [] =
  r <- execute_insert cv ts (PStr k) v ;;
  new <- stage_items cv ts its [] ;; Ok (r :: new).
Proof.
  simpl. destruct (execute_insert cv ts (PStr k) v) as [r|e]; simpl;
    [|reflexivity].
  apply stage_items_pending.
Qed.

(** The rows of a batch do not depend on the table they are added to. *)
Lemma store_free_app (ts sg : pyval) (db : list row) :
  store_free cv ts sg db =
  new <- store_free cv ts sg [] ;; Ok (db ++ new).
Proof.
  unfold store_free. destruct (items sg) as [its|e]; simpl; [|reflexivity].
  now destruct (stage_items cv ts its []).
Qed.

Lemma execute_insert_name (ts : pyval) (k : string) (v : pyval) (r : row) :
  execute_insert cv ts (PStr k) v = Ok r -> signal_name r = k.
Proof.
  unfold execute_insert. simpl.
  destruct (bind_param ts) as [t|]; simpl; [|discriminate].
  destruct (bind_param v) as [x|]; simpl; [|discriminate].
  destruct (text_not_null cv t); simpl; [|discriminate].
  destruct (real_not_null cv x); simpl; [|discriminate].
  now intros [= <-].
Qed.

Lemma execute_insert_ok (ts : pyval) (k : string) (v : pyval) :
  storable ts = true -> storable v = true ->
  exists r, execute_insert cv ts (PStr k) v = Ok r.
Proof.
  unfold execute_insert, storable. simpl.
  destruct (bind_param ts) as [[|n|f|s]|e]; try discriminate;
    destruct (bind_param v) as [[|n'|f'|s']|e']; try discriminate;
    intros _ _; simpl; eexists; reflexivity.
Qed.

Lemma execute_insert_raise (ts : pyval) (k : string) (v : pyval) :
  storable ts && storable v = false ->
  exists e, execute_insert cv ts (PStr k) v = Raise e.
Proof.
  unfold execute_insert, storable. simpl.
  destruct (bind_param ts) as [[|n|f|s]|e]; simpl;
    destruct (bind_param v) as [[|n'|f'|s']|e']; simpl;
    try discriminate; intros _; eexists; reflexivity.
Qed.

Lemma stage_items_names (ts : pyval) (its : list (string * pyval))
    (new : list row) :
  stage_items cv ts its [] = Ok new -> map signal_name new = map fst its.
Proof.
  revert new. induction its as [|[k v] its IH]; intros new.
  - now intros [= <-].
  - rewrite stage_items_cons.
    destruct (execute_insert cv ts (PStr k) v) as [r|] eqn:E; simpl;
      [|discriminate].
    destruct (stage_items cv ts its []) as [rest|]; simpl; [|discriminate].
    intros [= <-]. simpl. f_equal; [now apply execute_insert_name in E|].
    now apply IH.
Qed.

Lemma stage_items_ok (ts : pyval) (its : list (string * pyval)) :
  storable ts = true ->
  forallb (fun kv => storable (snd kv)) its = true ->
  exists new, stage_items cv ts its [] = Ok new.
Proof.
  intros Hts. induction its as [|[k v] its IH]; simpl forallb.
  - intros _. now exists [].
  - rewrite andb_true_iff. intros [Hv Hits].
    rewrite stage_items_cons.
    destruct (execute_insert_ok ts k v Hts Hv) as [r ->].
    destruct (IH Hits) as [new ->]. simpl. now eexists.
Qed.

Lemma stage_items_raise (ts : pyval) (its : list (string * pyval)) :
  its <> [] ->
  storable ts && forallb (fun kv => storable (snd kv)) its = false ->
  exists e, stage_items cv ts its [] = Raise e.
Proof.
  induction its as [|[k v] its IH]; [congruence|]. intros _ H.
  rewrite stage_items_cons.
  destruct (storable ts && storable v) eqn:S.
  - apply andb_true_iff in S as [Hts Hv].
    destruct (execute_insert_ok ts k v Hts Hv) as [r ->]. simpl.
    simpl in H. rewrite Hts, Hv in H. simpl in H.
    destruct its as [|kv its]; [discriminate|].
    destruct IH as [e ->]; [discriminate| |now exists e].
    now rewrite Hts.
  - destruct (execute_insert_raise ts k v S) as [e ->]. now exists e.
Qed.

(** A batch of numbers under a text timestamp: one row per item, the
    timestamp and the name as given, the number as a real. *)
Lemma stage_items_numbers (ts : string) (its : list (string * pyval)) :
  forallb (fun kv => valid_number (snd kv)) its = true ->
  stage_items cv (PStr ts) its [] = Ok (map (row_of_number ts) its).
Proof.
  induction its as [|[k v] its IH]; simpl forallb; [reflexivity|].
  rewrite andb_true_iff. intros [Hv Hits].
  rewrite stage_items_cons, (IH Hits).
  unfold valid_number, storable, is_number in Hv.
  unfold execute_insert, row_of_number. simpl.
  destruct v as [| |n|f| | |]; try discriminate; simpl in *.
  - destruct (fits_int64 n); [reflexivity|discriminate].
  - destruct (PrimFloat.is_nan f); [discriminate|reflexivity].
Qed.



Lemma execute_insert_binds (ts n v : pyval) (r : row) :
  execute_insert cv ts n v = Ok r -> binds ts n v = true.
Proof.
  unfold execute_insert, binds.
  destruct (bind_param ts); simpl; [|discriminate].
  destruct (bind_param n); simpl; [|discriminate].
  now destruct (bind_param v).
Qed.

Lemma execute_insert_unbound (ts n v : pyval) :
  binds ts n v = false -> exists e, execute_insert cv ts n v = Raise e.
Proof.
  unfold execute_insert, binds.
  destruct (bind_param ts) as [t|e]; simpl; [|now exists e].
  destruct (bind_param n) as [x|e]; simpl; [|now exists e].
  destruct (bind_param v) as [y|e]; simpl; [discriminate|now exists e].
Qed.

(** The loop when the write lock is free. *)
Lemma insert_items_free (ts : pyval) (its : list (string * pyval))
    (holds : bool) (pending : list row) :
  insert_items cv false ts its holds pending =
  (stage_items cv ts its pending, holds || first_binds ts its).
Proof.
  revert holds pending.
  induction its as [|[k v] its IH]; intros holds pending; simpl.
  - now rewrite orb_false_r.
  - unfold execute. simpl.
    destruct (execute_insert cv ts (PStr k) v) as [r|e] eqn:E; simpl;
      [|reflexivity].
    rewrite IH, (execute_insert_binds _ _ _ _ E).
    now rewrite !orb_true_r.
Qed.

(** The loop when it is taken: the first statement raises. *)
Lemma insert_items_busy (ts : pyval) (k : string) (v : pyval)
    (its : list (string * pyval)) (holds : bool) (pending : list row) :
  exists e,
    insert_items cv true ts ((k, v) :: its) holds pending = (Raise e, holds) /\
    (binds ts (PStr k) v = true -> e = OperationalError).
Proof.
  simpl. unfold execute. simpl. rewrite orb_false_r.
  destruct (binds ts (PStr k) v) eqn:B.
  - now exists OperationalError.
  - destruct (execute_insert_unbound _ _ _ B) as [e ->].
    exists e. split; [reflexivity|discriminate].
Qed.

Lemma store_telemetry_free (ts sg : pyval) (db : list row) :
  store_telemetry cv ts sg false db =
  match store_free cv ts sg [] with
  | Ok new => (Ok (db ++ new), false)
  | Raise e => (Raise e, leaves_lock ts sg)
  end.
Proof.
  unfold store_telemetry, store_free, leaves_lock.
  destruct sg as [| | | | | |its]; try reflexivity. simpl.
  rewrite insert_items_free. simpl.
  now destruct (stage_items cv ts its []).
Qed.

(** What [store_telemetry] commits, it commits as when the lock is
    free. *)
Lemma store_telemetry_ok (ts sg : pyval) (busy : bool) (db db' : list row) :
  fst (store_telemetry cv ts sg busy db) = Ok db' ->
  store_free cv ts sg db = Ok db'.
Proof.
  destruct busy.
  - destruct sg as [| | | | | |[|[k v] its]]; try discriminate;
      [unfold store_telemetry, store_free; simpl; auto|].
    unfold store_telemetry. cbn [items].
    destruct (insert_items_busy ts k v its false []) as (e & -> & _).
    discriminate.
  - rewrite store_telemetry_free, (store_free_app ts sg db).
    destruct (store_free cv ts sg []); simpl; auto.
Qed.

Lemma store_telemetry_busy (ts sg : pyval) (db : list row) :
  truthy sg = true ->
  exists e,
    store_telemetry cv ts sg true db = (Raise e, true) /\
    (forall k v its, sg = PDict ((k, v) :: its) ->
                     binds ts (PStr k) v = true -> e = OperationalError).
Proof.
  unfold store_telemetry.
  destruct sg as [| | | | | |[|[k v] its]]; try discriminate; intros _;
    try (exists AttributeError; split; [reflexivity|discriminate]).
  cbn [items].
  destruct (insert_items_busy ts k v its false []) as (e & -> & He).
  exists e. split; [reflexivity|].
  intros k' v' its' [= <- <- <-]. exact He.
Qed.

End Storing.

(** ** [POST /api/telemetry] *)

Section Ingest.

Variable cv : conversions.

Lemma state_eta (st : state) :
  {| table := table st; emitted := emitted st; locked := locked st |} = st.
Proof. now destruct st. Qed.

(** The handler on a JSON object, case by case, when the write lock is
    free. *)
Lemma receive_telemetry_dict (d : list (string * pyval)) (st : state) :
  locked st = false ->
  receive_telemetry cv (PDict d) st =
  if negb (truthy (field d "timestamp" PNone))
     || negb (truthy (field d "signals" (PDict [])))
  then ((ErrorInvalidPayload, 400%Z), st)
  else
    match
      store_free cv (field d "timestamp" PNone)
        (field d "signals" (PDict [])) []
    with
    | Ok new =>
        ((StatusSuccess, 200%Z),
         {| table := table st ++ new;
            emitted := emitted st ++ [event_of (PDict d)];
            locked := false |})
    | Raise e =>
        ((ErrorMessage e, 500%Z),
         {| table := table st; emitted := emitted st;
            locked := leaves_lock (field d "timestamp" PNone)
                        (field d "signals" (PDict [])) |})
    end.
Proof.
  intros L. unfold receive_telemetry, get, field. simpl.
  destruct (negb _ || negb _); [reflexivity|].
  rewrite L, store_telemetry_free.
  now destruct (store_free cv _ _ []).
Qed.

(** The guard comes before the store. *)
Lemma receive_telemetry_invalid (d : list (string * pyval)) (st : state) :
  truthy (field d "timestamp" PNone) = false \/
  truthy (field d "signals" (PDict [])) = false ->
  receive_telemetry cv (PDict d) st = ((ErrorInvalidPayload, 400%Z), st).
Proof.
  intros H. unfold receive_telemetry, get. simpl.
  fold (field d "timestamp" PNone). fold (field d "signals" (PDict [])).
  destruct H as [-> | ->]; simpl; now rewrite ?orb_true_r.
Qed.

(** And when it is taken: nothing is accepted. *)
Lemma receive_telemetry_locked (d : list (string * pyval)) (st : state) :
  locked st = true ->
  receive_telemetry cv (PDict d) st =
  ((ErrorInvalidPayload, 400%Z), st) /\
  (truthy (field d "timestamp" PNone) = false \/
   truthy (field d "signals" (PDict [])) = false) \/
  truthy (field d "timestamp" PNone) = true /\
  truthy (field d "signals" (PDict [])) = true /\
  exists e,
    receive_telemetry cv (PDict d) st = ((ErrorMessage e, 500%Z), st) /\
    (forall k v its,
        field d "signals" (PDict []) = PDict ((k, v) :: its) ->
        binds (field d "timestamp" PNone) (PStr k) v = true ->
        e = OperationalError).
Proof.
  intros L. unfold receive_telemetry, get. simpl.
  fold (field d "timestamp" PNone). fold (field d "signals" (PDict [])).
  destruct (truthy (field d "timestamp" PNone)) eqn:T1; simpl;
    [|left; auto].
  destruct (truthy (field d "signals" (PDict []))) eqn:T2; simpl;
    [|left; auto].
  right. repeat split. rewrite L.
  destruct (store_telemetry_busy cv (field d "timestamp" PNone)
              (field d "signals" (PDict [])) (table st) T2) as (e & -> & He).
  exists e. split; [|exact He].
  now rewrite <- L, state_eta.
Qed.

(** A body that is not a JSON object has no [get]. *)
Lemma receive_telemetry_not_dict (payload : pyval) (st : state) :
  (forall d, payload <> PDict d) ->
  receive_telemetry cv payload st = ((ErrorMessage AttributeError, 500%Z), st).
Proof.
  intros H. destruct payload; try reflexivity. now destruct (H d).
Qed.

(** Either the batch is stored and announced, the lock being free before
    and after, or neither the table nor the events change. *)
Lemma receive_telemetry_outcome (payload : pyval) (st : state) :
  (exists ts sg new,
      get payload "timestamp" PNone = Ok ts /\
      get payload "signals" (PDict []) = Ok sg /\
      truthy ts = true /\ truthy sg = true /\
      locked st = false /\
      store_free cv ts sg [] = Ok new /\
      receive_telemetry cv payload st =
      ((StatusSuccess, 200%Z),
       {| table := table st ++ new;
          emitted := emitted st ++ [event_of payload];
          locked := false |})) \/
  (exists b code lock,
      code <> 200%Z /\
      receive_telemetry cv payload st =
      ((b, code),
       {| table := table st; emitted := emitted st; locked := lock |})).
Proof.
  assert (Same : forall (b : body) (code : Z), code <> 200%Z ->
            exists b' code' lock,
              code' <> 200%Z /\
              ((b, code), st) =
              ((b', code'),
               {| table := table st; emitted := emitted st;
                  locked := lock |})).
  { intros b code Hc. exists b, code, (locked st).
    split; [exact Hc|]. now rewrite state_eta. }
  destruct payload as [| | | | | |d];
    try (right; apply Same; discriminate).
  destruct (locked st) eqn:L.
  - right.
    destruct (receive_telemetry_locked d st L)
      as [[-> _]|(_ & _ & e & -> & _)]; apply Same; discriminate.
  - rewrite (receive_telemetry_dict d st L).
    destruct (truthy (field d "timestamp" PNone)) eqn:T1; simpl;
      [|right; apply Same; discriminate].
    destruct (truthy (field d "signals" (PDict []))) eqn:T2; simpl;
      [|right; apply Same; discriminate].
    destruct (store_free cv _ _ []) as [new|e] eqn:S.
    + left.
      exists (field d "timestamp" PNone), (field d "signals" (PDict [])), new.
      repeat split; auto.
    + right. do 3 eexists. split; [|reflexivity]. discriminate.
Qed.

End Ingest.

(** ** Reading the table *)

Section Reading.

Lemma points_of_keyed (g : string -> list point) (ks : list string)
    (k : string) :
  points_of (map (fun k' => (k', g k')) ks) k =
  if existsb (String.eqb k) ks then g k else [].
Proof.
  induction ks as [|k' ks IH]; simpl; [reflexivity|].
  rewrite (String.eqb_sym k k').
  destruct (String.eqb_spec k' k) as [->|_]; simpl; [reflexivity|exact IH].
Qed.

(** The points under a name are those of its rows, none when it has none. *)
Lemma points_of_grouped (rows : list row) (k : string) :
  points_of (grouped rows) k = map point_of (rows_of k rows).
Proof.
  unfold grouped. rewrite points_of_keyed.
  destruct (existsb _ _) eqn:E; [reflexivity|].
  rewrite rows_of_absent; [reflexivity|].
  intros H. apply distinct_In, existsb_eqb_In in H. congruence.
Qed.

Lemma rows_of_select_since (k : string) (db : list row) (cutoff_time : string) :
  rows_of k (select_since db cutoff_time) =
  order_by timestamp
    (rows_of k (filter (fun r => (cutoff_time <=? timestamp r)%string) db)).
Proof. apply filter_order_by. Qed.

Lemma select_since_In (db : list row) (cutoff_time : string) (r : row) :
  In r (select_since db cutoff_time) <->
  In r db /\ (cutoff_time <=? timestamp r)%string = true.
Proof. unfold select_since. now rewrite order_by_In, filter_In. Qed.

Lemma rows_of_In (k : string) (rows : list row) (r : row) :
  In r (rows_of k rows) <-> In r rows /\ signal_name r = k.
Proof. unfold rows_of. now rewrite filter_In, String.eqb_eq. Qed.

Lemma Add_map {A B : Type} (f : A -> B) (a : A) (l l' : list A) :
  Add a l l' -> Add (f a) (map f l) (map f l').
Proof. induction 1; simpl; now constructor. Qed.

Lemma sorted_filter {A : Type} (R : A -> A -> Prop) (P : A -> bool)
    (l : list A) :
  StronglySorted R l -> StronglySorted R (filter P l).
Proof.
  induction 1 as [|x l Hl IH Hx]; simpl; [constructor|].
  destruct (P x); [|exact IH]. constructor; [exact IH|].
  apply Forall_forall. intros y Hy. apply filter_In in Hy as [Hy _].
  rewrite Forall_forall in Hx. now apply Hx.
Qed.

Lemma sorted_map {A B : Type} (R : B -> B -> Prop) (f : A -> B) (l : list A) :
  StronglySorted (fun x y => R (f x) (f y)) l -> StronglySorted R (map f l).
Proof.
  induction 1 as [|x l Hl IH Hx]; simpl; constructor; [exact IH|].
  apply Forall_forall. intros y Hy. apply in_map_iff in Hy as (z & <- & Hz).
  rewrite Forall_forall in Hx. now apply Hx.
Qed.


Lemma select_distinct_signal_names_In (db : list row) (n : string) :
  In n (select_distinct_signal_names db) <->
  exists r, In r db /\ signal_name r = n.
Proof.
  unfold select_distinct_signal_names.
  rewrite order_by_In, distinct_In, in_map_iff.
  split; intros (r & H1 & H2); exists r; tauto.
Qed.


(** The rows a batch of numbers stores under one of its names. *)
Lemma rows_of_batch (ts : string) (its : list (string * pyval))
    (k : string) (v : pyval) :
  NoDup (map fst its) -> In (k, v) its ->
  rows_of k (map (row_of_number ts) its) = [row_of_number ts (k, v)].
Proof.
  induction its as [|[k' v'] its IH]; simpl; [tauto|].
  intros Hnd Hin. inversion_clear Hnd as [|? ? Hk' Hnd'].
  destruct Hin as [[= -> ->]|Hin].
  - rewrite String.eqb_refl. f_equal.
    apply rows_of_absent. rewrite map_map. simpl. exact Hk'.
  - destruct (String.eqb_spec k' k) as [->|_]; [|now apply IH].
    destruct Hk'. apply in_map_iff. now exists (k, v).
Qed.

End Reading.

(** ** The query of the table *)

(** C4: for every cutoff the query returns exactly the stored rows whose
    timestamp is at or after the cutoff (each as often as it is stored), in
    ascending order of timestamp, rows of equal timestamp in the order of
    their insertion. *)
Theorem select_since_exact_ascending_stable (db : list row)
    (cutoff_time : string) :
  let matching := filter (fun r => (cutoff_time <=? timestamp r)%string) db in
  let rows := select_since db cutoff_time in
  Permutation rows matching /\
  StronglySorted (le_by timestamp) rows /\
  forall t : string,
    filter (fun r => (timestamp r =? t)%string) rows =
    filter (fun r => (timestamp r =? t)%string) matching.
Proof.
  cbv zeta. unfold select_since. split; [apply order_by_perm|].
  split; [apply order_by_sorted|].
  intros t. apply order_by_stable.
Qed.

(** C5: the historical query groups the matching rows by signal name, the
    names in the order of their first matching row; the points under a name
    are those of its rows, ascending by timestamp; a name without a
    matching row is not a key, and no key has an empty sequence. *)
Theorem get_recent_telemetry_groups (db : list row) (cutoff_time : string) :
  let rows := select_since db cutoff_time in
  let data := get_recent_telemetry db cutoff_time in
  map fst data = distinct (map signal_name rows) /\
  NoDup (map fst data) /\
  (forall k pts, In (k, pts) data ->
     pts = map point_of (rows_of k rows) /\
     pts <> [] /\
     StronglySorted (le_by point_timestamp) pts) /\
  (forall k, rows_of k rows = [] -> ~ In k (map fst data)).
Proof.
  cbv zeta. rewrite get_recent_telemetry_grouped.
  set (rows := select_since db cutoff_time).
  rewrite grouped_keys. split; [reflexivity|].
  split; [apply distinct_NoDup|]. split.
  - intros k pts H. apply grouped_In in H as [Hk ->].
    split; [reflexivity|]. split.
    + apply in_map_iff in Hk as (r & Hr & Hin).
      assert (Hin' : In r (rows_of k rows)) by now apply rows_of_In.
      destruct (rows_of k rows); [contradiction|discriminate].
    + apply sorted_map. apply sorted_filter.
      apply (order_by_sorted timestamp).
  - intros k Hk Hin. apply distinct_In, in_map_iff in Hin as (r & Hr & Hin).
    assert (Hin' : In r (rows_of k rows)) by now apply rows_of_In.
    now rewrite Hk in Hin'.
Qed.

(** C9: the historical query has no upper bound in time: a stored row at or
    after the cutoff is returned, under its signal name, also when its
    timestamp is later than the present. *)
Theorem future_rows_are_returned (db : list row) (cutoff_time now : string)
    (r : row) :
  In r db ->
  (cutoff_time <=? timestamp r)%string = true ->
  (now <? timestamp r)%string = true ->
  In r (select_since db cutoff_time) /\
  In (point_of r)
     (points_of (get_recent_telemetry db cutoff_time) (signal_name r)).
Proof.
  intros Hin Hcut _.
  assert (Hsel : In r (select_since db cutoff_time))
    by now apply select_since_In.
  split; [exact Hsel|].
  rewrite get_recent_telemetry_grouped, points_of_grouped.
  apply in_map. now apply rows_of_In.
Qed.


(** ** Ingestion *)


Lemma store_free_rows (cv : conversions) (ts sg : pyval) (new : list row) :
  truthy sg = true -> store_free cv ts sg [] = Ok new -> new <> [].
Proof.
  unfold store_free. destruct sg as [| | | | | |its]; try discriminate.
  simpl. intros Hsg.
  destruct (stage_items cv ts its []) as [rows|] eqn:E; [|discriminate].
  simpl. intros [= <-]. apply stage_items_names in E.
  destruct its; [discriminate|]. now destruct rows.
Qed.

(** C3: a request whose timestamp is missing or empty, or whose signals
    are missing or empty, is answered 400 with "Invalid payload"; it
    writes no row and emits no event. *)
Theorem receive_telemetry_missing_field (cv : conversions)
    (d : list (string * pyval)) (st : state) :
  dict_get d "timestamp" = None \/ dict_get d "timestamp" = Some (PStr "") \/
  dict_get d "signals" = None \/ dict_get d "signals" = Some (PDict []) ->
  let out := receive_telemetry cv (PDict d) st in
  fst out = (ErrorInvalidPayload, 400%Z) /\
  table (state_of out) = table st /\
  emitted (state_of out) = emitted st.
Proof.
  intros H. cbv zeta. rewrite receive_telemetry_invalid; [auto|].
  unfold field. destruct H as [H|[H|[H|H]]]; rewrite H; auto.
Qed.



(** C8: every request leaves the rows that were stored where they were:
    the table after it is the table before it followed by the rows it
    added, and a request other than an ingestion adds none; so does every
    sequence of requests, [store_telemetry] and [init_db]. *)
Theorem stored_rows_are_kept (cv : conversions) :
  (forall rq st, exists new,
      table (state_of (handle cv rq st)) = table st ++ new) /\
  (forall rq st, is_read rq = true -> state_of (handle cv rq st) = st) /\
  (forall rqs st, exists new, table (run cv rqs st) = table st ++ new) /\
  (forall ts sg busy db db',
      fst (store_telemetry cv ts sg busy db) = Ok db' ->
      exists new, db' = db ++ new) /\
  (forall rows, init_db (Some rows) = rows).
Proof.
  assert (H1 : forall rq st, exists new,
             table (state_of (handle cv rq st)) = table st ++ new).
  { intros [payload|[c|e]| |] st; unfold state_of; simpl;
      try (exists []; now rewrite app_nil_r).
    destruct (receive_telemetry_outcome cv payload st)
      as [(ts & sg & new & _ & _ & _ & _ & _ & _ & ->)
         |(b & code & lock & _ & ->)]; simpl.
    - now exists new.
    - exists []. now rewrite app_nil_r. }
  split; [exact H1|]. split.
  { intros [payload|[c|e]| |] st; try discriminate; reflexivity. }
  split.
  { intros rqs. induction rqs as [|rq rqs IH]; intros st.
    - exists []. now rewrite app_nil_r.
    - unfold run. simpl. fold (run cv rqs (snd (handle cv rq st))).
      destruct (IH (snd (handle cv rq st))) as [new2 ->].
      destruct (H1 rq st) as [new1 E]. unfold state_of in E. rewrite E.
      exists (new1 ++ new2). now rewrite app_assoc. }
  split; [|reflexivity].
  intros ts sg busy db db'. unfold store_telemetry.
  destruct (items sg) as [its|]; [|discriminate].
  destruct (insert_items cv busy ts its false []) as [[pending|] holds];
    [|discriminate].
  simpl. intros [= <-]. now exists pending.
Qed.

Lemma filter_all {A : Type} (P : A -> bool) (l : list A) :
  (forall x, In x l -> P x = true) -> filter P l = l.
Proof.
  induction l as [|x l IH]; simpl; [reflexivity|]. intros H.
  rewrite (H x) by now left. f_equal. apply IH. intros y Hy. apply H. now right.
Qed.

(** The points under a name after a batch of numbers was added to the
    table: those before, and the one of the batch. *)
Lemma points_of_after_batch (db : list row) (ts cutoff_time : string)
    (its : list (string * pyval)) (k : string) (v : pyval) :
  NoDup (map fst its) -> In (k, v) its ->
  (cutoff_time <=? ts)%string = true ->
  Add (point_of (row_of_number ts (k, v)))
    (points_of (get_recent_telemetry db cutoff_time) k)
    (points_of
       (get_recent_telemetry (db ++ map (row_of_number ts) its) cutoff_time)
       k).
Proof.
  intros Hnd Hin Hcut.
  rewrite !get_recent_telemetry_grouped, !points_of_grouped.
  rewrite !rows_of_select_since. apply Add_map.
  rewrite filter_app, rows_of_app.
  rewrite (filter_all _ (map (row_of_number ts) its)).
  - rewrite (rows_of_batch ts its k v Hnd Hin). apply order_by_snoc_Add.
  - intros r Hr. apply in_map_iff in Hr as (kv & <- & _). exact Hcut.
Qed.

(** A batch of numbers under a text timestamp is accepted. *)
Lemma receive_telemetry_numbers (cv : conversions) (d : list (string * pyval))
    (st : state) (ts : string) (its : list (string * pyval)) :
  locked st = false ->
  dict_get d "timestamp" = Some (PStr ts) -> ts <> "" ->
  dict_get d "signals" = Some (PDict its) -> its <> [] ->
  forallb (fun kv => valid_number (snd kv)) its = true ->
  receive_telemetry cv (PDict d) st =
  ((StatusSuccess, 200%Z),
   {| table := table st ++ map (row_of_number ts) its;
      emitted := emitted st ++ [event_of (PDict d)];
      locked := false |}).
Proof.
  intros L Hts Hne Hsg Hits Hnum.
  rewrite (receive_telemetry_dict cv d st L). unfold field. rewrite Hts, Hsg.
  assert (T1 : truthy (PStr ts) = true).
  { simpl. apply negb_true_iff. now apply String.eqb_neq. }
  assert (T2 : truthy (PDict its) = true) by now destruct its.
  rewrite T1, T2. simpl.
  assert (S : store_free cv (PStr ts) (PDict its) [] =
              Ok (map (row_of_number ts) its)).
  { unfold store_free. simpl.
    now rewrite (stage_items_numbers cv ts its Hnum). }
  now rewrite S.
Qed.

Lemma Add_twice_nil {A : Type} (p : A) (once twice : list A) :
  Add p [] once -> Add p once twice -> twice = [p; p].
Proof.
  intros H1 H2. inversion H1; subst.
  inversion H2 as [|? ? ? H3]; subst; [reflexivity|].
  inversion H3; subst. reflexivity.
Qed.

(** The number a point holds for a number of a batch. *)
Lemma as_real_number (v : pyval) :
  valid_number v = true ->
  exists x : float,
    as_real v = SReal x /\
    (forall f, v = PFloat f ->
               x = if PrimFloat.eqb f 0 then 0%float else f) /\
    (forall n, v = PInt n -> x = real_of_int n).
Proof.
  destruct v as [| |n|f| | |]; try discriminate; intros _; simpl.
  - exists (real_of_int n). repeat split; congruence.
  - exists (stored_real f). repeat split; [|congruence].
    now intros f' [= <-].
Qed.

(** C1, as the code has it: when no connection left open by a refused
    batch holds the write lock, a batch with a non-empty text timestamp and
    a non-empty mapping of distinct names to numbers the column takes is
    answered 200, and a later historical query whose cutoff is not after
    the timestamp (as text) returns, under each name of the batch, one
    point more than before the ingestion: the timestamp with the number as
    a real, which is the float that was given unless that is a zero, then
    zero without its sign, and the nearest double of an integer. Under a
    name that had no point the query returns that point alone. *)
Theorem ingest_then_query (cv : conversions) (d : list (string * pyval))
    (st : state) (ts : string) (its : list (string * pyval))
    (cutoff_time : string) :
  locked st = false ->
  dict_get d "timestamp" = Some (PStr ts) -> ts <> "" ->
  dict_get d "signals" = Some (PDict its) -> its <> [] ->
  NoDup (map fst its) ->
  forallb (fun kv => valid_number (snd kv)) its = true ->
  (cutoff_time <=? ts)%string = true ->
  let out := receive_telemetry cv (PDict d) st in
  let before := get_recent_telemetry (table st) cutoff_time in
  let after := get_recent_telemetry (table (state_of out)) cutoff_time in
  fst out = (StatusSuccess, 200%Z) /\
  forall name v, In (name, v) its ->
    exists x : float,
      let p := {| point_timestamp := ts; point_value := SReal x |} in
      Add p (points_of before name) (points_of after name) /\
      (points_of before name = [] -> points_of after name = [p]) /\
      (forall f, v = PFloat f ->
                 x = if PrimFloat.eqb f 0 then 0%float else f) /\
      (forall n, v = PInt n -> x = real_of_int n).
Proof.
  intros L Hts Hne Hsg Hits Hnd Hnum Hcut. cbv zeta.
  rewrite (receive_telemetry_numbers cv d st ts its L Hts Hne Hsg Hits Hnum).
  unfold state_of. simpl.
  split; [reflexivity|]. intros name v Hin.
  pose proof (points_of_after_batch (table st) ts cutoff_time its name v
                Hnd Hin Hcut) as HA.
  rewrite forallb_forall in Hnum. specialize (Hnum _ Hin). simpl in Hnum.
  destruct (as_real_number v Hnum) as (x & Hx & Hf & Hn).
  unfold point_of, row_of_number in HA. simpl in HA. rewrite Hx in HA.
  exists x. split; [exact HA|]. split; [|split; assumption].
  intros E. rewrite E in HA. now inversion HA.
Qed.

(** C10: ingestion is not idempotent. When no connection left open holds
    the write lock, a batch with a non-empty text timestamp and a non-empty
    mapping of distinct names to numbers the column takes is accepted, and
    accepted again: the table then ends with the rows of the batch twice
    (there is at least one), and [get_recent_telemetry] with a cutoff not
    after the timestamp returns, under each name of the batch, the point of
    the batch two times more than before the two ingestions; under a name
    that had no point it returns that point twice and nothing else. *)
Theorem ingest_twice_stores_twice (cv : conversions)
    (d : list (string * pyval)) (st : state) (ts : string)
    (its : list (string * pyval)) (cutoff_time : string) :
  locked st = false ->
  dict_get d "timestamp" = Some (PStr ts) -> ts <> "" ->
  dict_get d "signals" = Some (PDict its) -> its <> [] ->
  NoDup (map fst its) ->
  forallb (fun kv => valid_number (snd kv)) its = true ->
  (cutoff_time <=? ts)%string = true ->
  let out1 := receive_telemetry cv (PDict d) st in
  let out2 := receive_telemetry cv (PDict d) (state_of out1) in
  let rows := map (row_of_number ts) its in
  let before := get_recent_telemetry (table st) cutoff_time in
  let after := get_recent_telemetry (table (state_of out2)) cutoff_time in
  fst out1 = (StatusSuccess, 200%Z) /\
  fst out2 = (StatusSuccess, 200%Z) /\
  rows <> [] /\
  table (state_of out2) = (table st ++ rows) ++ rows /\
  forall name v, In (name, v) its ->
    exists x : float,
      let p := {| point_timestamp := ts; point_value := SReal x |} in
      In {| timestamp := ts; signal_name := name; value := SReal x |} rows /\
      (exists once,
          Add p (points_of before name) once /\
          Add p once (points_of after name)) /\
      List.length (points_of after name) =
      S (S (List.length (points_of before name))) /\
      (points_of before name = [] -> points_of after name = [p; p]) /\
      (forall f, v = PFloat f ->
                 x = if PrimFloat.eqb f 0 then 0%float else f) /\
      (forall n, v = PInt n -> x = real_of_int n).
Proof.
  intros L Hts Hne Hsg Hits Hnd Hnum Hcut. cbv zeta.
  rewrite (receive_telemetry_numbers cv d st ts its L Hts Hne Hsg Hits Hnum).
  unfold state_of. simpl.
  rewrite (receive_telemetry_numbers cv d
             {| table := table st ++ map (row_of_number ts) its;
                emitted := emitted st ++ [event_of (PDict d)];
                locked := false |} ts its eq_refl Hts Hne Hsg Hits Hnum).
  simpl.
  split; [reflexivity|]. split; [reflexivity|].
  split; [now destruct its|]. split; [reflexivity|].
  intros name v Hin.
  pose proof (points_of_after_batch (table st) ts cutoff_time its name v
                Hnd Hin Hcut) as H1.
  pose proof (points_of_after_batch (table st ++ map (row_of_number ts) its)
                ts cutoff_time its name v Hnd Hin Hcut) as H2.
  assert (Hr : In (row_of_number ts (name, v)) (map (row_of_number ts) its))
    by now apply in_map.
  rewrite forallb_forall in Hnum. specialize (Hnum _ Hin). simpl in Hnum.
  destruct (as_real_number v Hnum) as (x & Hx & Hf & Hn).
  change (point_of (row_of_number ts (name, v)))
    with {| point_timestamp := ts; point_value := as_real v |} in H1, H2.
  change (row_of_number ts (name, v))
    with {| timestamp := ts; signal_name := name; value := as_real v |}
    in Hr at 1.
  rewrite Hx in H1, H2, Hr.
  exists x. split; [exact Hr|]. split; [eauto|]. split.
  { apply Add_length in H1, H2. congruence. }
  split; [|split; assumption].
  intros E. rewrite E in H1. exact (Add_twice_nil _ _ _ H1 H2).
Qed.

(** What [store_telemetry] accepts: a mapping whose timestamp and values
    the columns take. *)
Lemma store_free_accepts (cv : conversions) (ts sg : pyval) :
  truthy sg = true ->
  (exists new, store_free cv ts sg [] = Ok new) <->
  storable ts = true /\
  exists its, sg = PDict its /\
              forallb (fun kv => storable (snd kv)) its = true.
Proof.
  intros Hsg. unfold store_free. split.
  - intros [new H]. destruct sg as [| | | | | |its]; try discriminate.
    simpl in H.
    destruct (storable ts && forallb (fun kv => storable (snd kv)) its) eqn:S.
    + apply andb_true_iff in S as [S1 S2]. split; [exact S1|]. now exists its.
    + destruct (stage_items_raise cv ts its) as [e E]; [now destruct its|exact S|].
      rewrite E in H. discriminate.
  - intros [S1 (its & -> & S2)]. simpl.
    destruct (stage_items_ok cv ts its S1 S2) as [new ->]. now exists new.
Qed.

(** The answer to a JSON object, by its two fields and the lock. *)
Lemma receive_telemetry_code (cv : conversions)
    (d : list (string * pyval)) (st : state) :
  let ts := field d "timestamp" PNone in
  let sg := field d "signals" (PDict []) in
  let out := receive_telemetry cv (PDict d) st in
  (code_of out = 400%Z <-> truthy ts = false \/ truthy sg = false) /\
  (code_of out = 200%Z <->
   truthy ts = true /\ truthy sg = true /\ storable ts = true /\
   (exists its, sg = PDict its /\
                forallb (fun kv => storable (snd kv)) its = true) /\
   locked st = false) /\
  (code_of out = 200%Z \/ code_of out = 400%Z \/ code_of out = 500%Z) /\
  (code_of out <> 200%Z ->
   table (state_of out) = table st /\ emitted (state_of out) = emitted st).
Proof.
  cbv zeta.
  set (ts := field d "timestamp" PNone).
  set (sg := field d "signals" (PDict [])).
  destruct (truthy ts) eqn:T1.
  2:{ rewrite receive_telemetry_invalid by (left; exact T1).
      unfold code_of, state_of; simpl.
      repeat split; auto; try discriminate. intros [? _]; discriminate. }
  destruct (truthy sg) eqn:T2.
  2:{ rewrite receive_telemetry_invalid by (right; exact T2).
      unfold code_of, state_of; simpl.
      repeat split; auto; try discriminate.
      intros (_ & ? & _); discriminate. }
  destruct (locked st) eqn:L.
  - destruct (receive_telemetry_locked cv d st L)
      as [[_ [H|H]]|(_ & _ & e & E & _)];
      [fold ts in H; congruence|fold sg in H; congruence|].
    rewrite E. unfold code_of, state_of; simpl.
    split; [split; [discriminate|intros [?|?]; discriminate]|].
    split; [split; [discriminate|intros (_ & _ & _ & _ & ?); discriminate]|].
    split; [now right; right|auto].
  - rewrite (receive_telemetry_dict cv d st L). fold ts sg.
    rewrite T1, T2. simpl.
    pose proof (store_free_accepts cv ts sg T2) as A.
    destruct (store_free cv ts sg []) as [new|e];
      unfold code_of, state_of; simpl.
    + split; [split; [discriminate|intros [?|?]; discriminate]|].
      split; [|split; [now left|congruence]].
      split; [|reflexivity]. intros _.
      destruct A as [A _]. destruct A as [S1 S2]; [now exists new|].
      repeat split; auto.
    + split; [split; [discriminate|intros [?|?]; discriminate]|].
      split; [|split; [now right; right|auto]].
      split; [discriminate|].
      intros (_ & _ & S1 & S2 & _). destruct A as [_ A].
      destruct A as [new E]; [now split|discriminate].
Qed.

(** C2, as the code has it: the only requests answered 400 are the JSON
    objects whose timestamp or signals are missing or false; neither the
    type of a value nor the form of the timestamp is checked. A request is
    answered 200 exactly when it is a JSON object with a true timestamp and
    a non-empty mapping of signals, the columns take the timestamp and
    every value, and no connection left open by a refused batch holds the
    write lock; every other request, a body that is not a JSON object
    among them, is answered 500. A request that is not answered 200 writes
    no row and emits no event. *)
Theorem receive_telemetry_status (cv : conversions) (payload : pyval)
    (st : state) :
  let out := receive_telemetry cv payload st in
  (code_of out = 400%Z <->
   exists d,
     payload = PDict d /\
     (truthy (field d "timestamp" PNone) = false \/
      truthy (field d "signals" (PDict [])) = false)) /\
  (code_of out = 200%Z <->
   exists d its,
     payload = PDict d /\
     truthy (field d "timestamp" PNone) = true /\
     field d "signals" (PDict []) = PDict its /\ its <> [] /\
     storable (field d "timestamp" PNone) = true /\
     forallb (fun kv => storable (snd kv)) its = true /\
     locked st = false) /\
  (code_of out = 200%Z \/ code_of out = 400%Z \/ code_of out = 500%Z) /\
  (code_of out <> 200%Z ->
   table (state_of out) = table st /\ emitted (state_of out) = emitted st).
Proof.
  cbv zeta.
  destruct payload as [| | | | | |d];
    try (unfold code_of, state_of; simpl;
         split; [split; [discriminate|intros (d & ? & _); discriminate]|];
         split; [split; [discriminate
                        |intros (d & its & ? & _); discriminate]|];
         split; [now right; right|auto]).
  destruct (receive_telemetry_code cv d st) as (H4 & H2 & H3 & H5).
  split; [|split; [|split; assumption]].
  - rewrite H4. split.
    + intros H. now exists d.
    + now intros (d' & [= <-] & H).
  - rewrite H2. split.
    + intros (T1 & T2 & S1 & (its & Hsg & S2) & L).
      exists d, its. rewrite Hsg in T2.
      repeat split; auto. now intros ->.
    + intros (d' & its & [= <-] & T1 & Hsg & Hne & S1 & S2 & L).
      rewrite Hsg. repeat split; auto; [now destruct its|now exists its].
Qed.

(** ** Concrete runs *)

(** C2 fails as stated: a request whose timestamp is not a date and whose
    value is not a number is answered 200, and its row is in the table. *)
Lemma unvalidated_batch_is_stored :
  is_number (PStr "abc") = false /\
  receive_telemetry constant_conversions
    (batch "not-a-date" [("a", PStr "abc")]) empty_state =
  ((StatusSuccess, 200%Z),
   {| table := [{| timestamp := "not-a-date"; signal_name := "a";
                   value := SText "abc" |}];
      emitted := [event_of (batch "not-a-date" [("a", PStr "abc")])];
      locked := false |}).
Proof. split; reflexivity. Qed.

(** C1 fails as stated: after the same batch was ingested twice the query
    returns its pair twice, not once; a batch whose number is an integer
    beyond 64 bits is answered 500; a negative zero comes back as zero,
    without its sign; and after a batch that was refused in the middle of
    its loop, whose connection stays open with the write lock, the batch
    that was accepted before is answered 500. *)
Lemma repeated_batch_is_returned_twice :
  let p := batch "2024-01-01T00:00:00" [("a", PFloat 1.5)] in
  let st1 := state_of (receive_telemetry constant_conversions p empty_state) in
  let out := receive_telemetry constant_conversions p st1 in
  let zero := batch "2024-01-01T00:00:00" [("a", PFloat (-0))] in
  let refused :=
    batch "2024-01-01T00:00:00" [("a", PFloat 1.5); ("b", PNone)] in
  let st2 :=
    state_of (receive_telemetry constant_conversions refused empty_state) in
  valid_number (PFloat 1.5) = true /\
  fst out = (StatusSuccess, 200%Z) /\
  points_of
    (get_recent_telemetry (table (state_of out)) "2024-01-01T00:00:00") "a" =
  [{| point_timestamp := "2024-01-01T00:00:00"; point_value := SReal 1.5 |};
   {| point_timestamp := "2024-01-01T00:00:00"; point_value := SReal 1.5 |}] /\
  is_number (PInt (2 ^ 63)) = true /\
  receive_telemetry constant_conversions
    (batch "2024-01-01T00:00:00" [("a", PInt (2 ^ 63))]) empty_state =
  ((ErrorMessage OverflowError, 500%Z), empty_state) /\
  valid_number (PFloat (-0)) = true /\
  PrimFloat.get_sign (-0) = true /\
  fst (receive_telemetry constant_conversions zero empty_state) =
  (StatusSuccess, 200%Z) /\
  points_of
    (get_recent_telemetry
       (table (state_of
                 (receive_telemetry constant_conversions zero empty_state)))
       "2024-01-01T00:00:00") "a" =
  [{| point_timestamp := "2024-01-01T00:00:00"; point_value := SReal 0 |}] /\
  PrimFloat.get_sign 0 = false /\
  st2 = {| table := []; emitted := []; locked := true |} /\
  receive_telemetry constant_conversions p st2 =
  ((ErrorMessage OperationalError, 500%Z), st2).
Proof. cbv zeta. repeat split; reflexivity. Qed.

(** The batch of the specification's example without its timestamp. *)
Lemma receive_telemetry_missing_field_witness :
  dict_get [("signals", PDict [("a", PFloat 1.0)])] "timestamp" = None /\
  let out :=
    receive_telemetry constant_conversions
      (PDict [("signals", PDict [("a", PFloat 1.0)])]) sample_state in
  fst out = (ErrorInvalidPayload, 400%Z) /\
  table (state_of out) = table sample_state /\
  emitted (state_of out) = emitted sample_state.
Proof.
  split; [reflexivity|].
  apply (receive_telemetry_missing_field constant_conversions
           [("signals", PDict [("a", PFloat 1.0)])] sample_state).
  left. reflexivity.
Defined.

(** A batch of two numbers on a table that holds a point of one of them. *)
Lemma ingest_then_query_witness :
  let d := [("timestamp", PStr "2024-01-01T00:00:00");
            ("signals", PDict sample_signals)] in
  let out := receive_telemetry constant_conversions (PDict d) sample_state in
  let before :=
    get_recent_telemetry (table sample_state) "2023-12-31T00:00:00" in
  let after :=
    get_recent_telemetry (table (state_of out)) "2023-12-31T00:00:00" in
  locked sample_state = false /\
  fst out = (StatusSuccess, 200%Z) /\
  forall name v, In (name, v) sample_signals ->
    exists x : float,
      let p := {| point_timestamp := "2024-01-01T00:00:00";
                  point_value := SReal x |} in
      Add p (points_of before name) (points_of after name) /\
      (points_of before name = [] -> points_of after name = [p]) /\
      (forall f, v = PFloat f ->
                 x = if PrimFloat.eqb f 0 then 0%float else f) /\
      (forall n, v = PInt n -> x = real_of_int n).
Proof.
  cbv zeta. split; [reflexivity|].
  apply (ingest_then_query constant_conversions
           [("timestamp", PStr "2024-01-01T00:00:00");
            ("signals", PDict sample_signals)]
           sample_state "2024-01-01T00:00:00" sample_signals
           "2023-12-31T00:00:00").
  - reflexivity.
  - reflexivity.
  - discriminate.
  - reflexivity.
  - discriminate.
  - repeat constructor; simpl; intuition discriminate.
  - reflexivity.
  - reflexivity.
Defined.

(** On [{"timestamp": "not-a-date", "signals": {"a": "abc"}}]. *)
Lemma receive_telemetry_status_witness :
  code_of
    (receive_telemetry constant_conversions
       (PDict [("timestamp", PStr "not-a-date");
               ("signals", PDict [("a", PStr "abc")])]) empty_state) = 200%Z.
Proof.
  apply (receive_telemetry_status constant_conversions
           (PDict [("timestamp", PStr "not-a-date");
                   ("signals", PDict [("a", PStr "abc")])]) empty_state).
  exists [("timestamp", PStr "not-a-date");
          ("signals", PDict [("a", PStr "abc")])], [("a", PStr "abc")].
  repeat split. discriminate.
Defined.

(** The group of signal [b] in the sample table. *)
Lemma get_recent_telemetry_groups_witness :
  let rows := select_since sample_table "2023-01-01T00:00:00" in
  let pts := [{| point_timestamp := "2023-12-31T23:00:00";
                 point_value := SReal 0.5 |}] in
  In ("b", pts) (get_recent_telemetry sample_table "2023-01-01T00:00:00") /\
  pts = map point_of (rows_of "b" rows) /\
  pts <> [] /\
  StronglySorted (le_by point_timestamp) pts.
Proof.
  cbv zeta.
  assert (H : In ("b", [{| point_timestamp := "2023-12-31T23:00:00";
                           point_value := SReal 0.5 |}])
                 (get_recent_telemetry sample_table "2023-01-01T00:00:00"))
    by (left; reflexivity).
  split; [exact H|].
  exact (proj1 (proj2 (proj2
           (get_recent_telemetry_groups sample_table "2023-01-01T00:00:00")))
           "b" _ H).
Defined.



(** A read, and then the sample batch, on the sample table. *)
Lemma stored_rows_are_kept_witness :
  is_read GetSignals = true /\
  state_of (handle constant_conversions GetSignals sample_state) =
  sample_state /\
  exists new,
    table (run constant_conversions
             [GetSignals;
              PostTelemetry (batch "2024-01-01T00:00:00" sample_signals)]
             sample_state) = sample_table ++ new.
Proof.
  split; [reflexivity|]. split.
  - apply (proj1 (proj2 (stored_rows_are_kept constant_conversions))).
    reflexivity.
  - apply (proj1 (proj2 (proj2 (stored_rows_are_kept constant_conversions)))).
Defined.

(** The row of the year 2999 in the sample table, seen from 2024. *)
Lemma future_rows_are_returned_witness :
  let r := {| timestamp := "2999-01-01T00:00:00"; signal_name := "c";
              value := SReal 9 |} in
  ("2024-06-01T00:00:00" <? timestamp r)%string = true /\
  In r (select_since sample_table "2023-01-01T00:00:00") /\
  In (point_of r)
     (points_of (get_recent_telemetry sample_table "2023-01-01T00:00:00") "c").
Proof.
  cbv zeta. split; [reflexivity|].
  apply (future_rows_are_returned sample_table "2023-01-01T00:00:00"
           "2024-06-01T00:00:00"
           {| timestamp := "2999-01-01T00:00:00"; signal_name := "c";
              value := SReal 9 |}).
  - right. left. reflexivity.
  - reflexivity.
  - reflexivity.
Defined.

(** The sample batch, twice, on the empty table: the query returns the
    point of [a] twice. *)
Lemma ingest_twice_stores_twice_witness :
  let d := [("timestamp", PStr "2024-01-01T00:00:00");
            ("signals", PDict sample_signals)] in
  let out1 := receive_telemetry constant_conversions (PDict d) empty_state in
  let out2 := receive_telemetry constant_conversions (PDict d) (state_of out1) in
  let rows := map (row_of_number "2024-01-01T00:00:00") sample_signals in
  let before :=
    get_recent_telemetry (table empty_state) "2023-12-31T00:00:00" in
  let after :=
    get_recent_telemetry (table (state_of out2)) "2023-12-31T00:00:00" in
  points_of after "a" =
  [{| point_timestamp := "2024-01-01T00:00:00"; point_value := SReal 1.5 |};
   {| point_timestamp := "2024-01-01T00:00:00"; point_value := SReal 1.5 |}] /\
  locked empty_state = false /\
  fst out1 = (StatusSuccess, 200%Z) /\
  fst out2 = (StatusSuccess, 200%Z) /\
  rows <> [] /\
  table (state_of out2) = (table empty_state ++ rows) ++ rows /\
  forall name v, In (name, v) sample_signals ->
    exists x : float,
      let p := {| point_timestamp := "2024-01-01T00:00:00";
                  point_value := SReal x |} in
      In {| timestamp := "2024-01-01T00:00:00"; signal_name := name;
            value := SReal x |} rows /\
      (exists once,
          Add p (points_of before name) once /\
          Add p once (points_of after name)) /\
      List.length (points_of after name) =
      S (S (List.length (points_of before name))) /\
      (points_of before name = [] -> points_of after name = [p; p]) /\
      (forall f, v = PFloat f ->
                 x = if PrimFloat.eqb f 0 then 0%float else f) /\
      (forall n, v = PInt n -> x = real_of_int n).
Proof.
  cbv zeta. split; [reflexivity|]. split; [reflexivity|].
  apply (ingest_twice_stores_twice constant_conversions
           [("timestamp", PStr "2024-01-01T00:00:00");
            ("signals", PDict sample_signals)]
           empty_state "2024-01-01T00:00:00" sample_signals
           "2023-12-31T00:00:00").
  - reflexivity.
  - reflexivity.
  - discriminate.
  - reflexivity.
  - discriminate.
  - repeat constructor; simpl; intuition discriminate.
  - reflexivity.
  - reflexivity.
Defined.

(** ** The text of a time orders as the time *)

Section IsoformatOrder.

Local Open Scope N_scope.

Lemma add_compare_l (p n m : N) : (p + n ?= p + m) = (n ?= m).
Proof.
  destruct (N.compare_spec n m) as [->|H|H].
  - apply N.compare_refl.
  - apply N.compare_lt_iff. lia.
  - apply N.compare_gt_iff. lia.
Qed.

Lemma digit_compare (a b : N) :
  a < 10 -> b < 10 -> Ascii.compare (digit a) (digit b) = (a ?= b).
Proof.
  intros Ha Hb. unfold Ascii.compare, digit.
  rewrite !N_ascii_embedding by lia. apply add_compare_l.
Qed.

Lemma compare_split (B a b r r' : N) :
  r < B -> r' < B ->
  (r + B * a ?= r' + B * b) = then_compare (a ?= b) (r ?= r').
Proof.
  intros Hr Hr'. destruct (N.compare_spec a b) as [->|H|H]; simpl.
  - rewrite !(N.add_comm _ (B * b)). apply add_compare_l.
  - apply N.compare_lt_iff. nia.
  - apply N.compare_gt_iff. nia.
Qed.

Lemma digits_succ (w : nat) (n : N) :
  digits (S w) n = String (digit ((n / 10 ^ N.of_nat w) mod 10)) (digits w n).
Proof. reflexivity. Qed.

Lemma digits_compare (w : nat) (n m : N) (s t : string) :
  ((digits w n ++ s) ?= (digits w m ++ t))%string =
  then_compare (n mod 10 ^ N.of_nat w ?= m mod 10 ^ N.of_nat w)
               (s ?= t)%string.
Proof.
  induction w as [|w IH].
  - change (10 ^ N.of_nat 0) with 1. now rewrite !N.mod_1_r.
  - rewrite !digits_succ.
    change ((String ?c ?x ++ ?y)%string) with (String c (x ++ y)%string).
    cbn [String.append String.compare].
    rewrite digit_compare by (apply N.mod_lt; discriminate).
    rewrite IH. rewrite Nat2N.inj_succ, N.pow_succ_r'.
    rewrite (N.mul_comm 10), !N.Div0.mod_mul_r.
    rewrite compare_split by (apply N.mod_lt, N.pow_nonzero; discriminate).
    now destruct ((n / 10 ^ N.of_nat w) mod 10 ?= (m / 10 ^ N.of_nat w) mod 10).
Qed.

Lemma append_empty (s : string) : (s ++ "")%string = s.
Proof. induction s as [|c s IH]; simpl; now rewrite ?IH. Qed.

Lemma fraction_compare (a b : datetime) :
  microsecond a < 1000000 -> microsecond b < 1000000 ->
  (fraction a ?= fraction b)%string = (microsecond a ?= microsecond b).
Proof.
  intros Ha Hb. unfold fraction.
  destruct (N.eqb_spec (microsecond a) 0) as [Ea|Ea];
    destruct (N.eqb_spec (microsecond b) 0) as [Eb|Eb].
  - now rewrite Ea, Eb.
  - rewrite Ea. cbn [String.append String.compare].
    symmetry. apply N.compare_lt_iff. lia.
  - rewrite Eb. cbn [String.append String.compare].
    symmetry. apply N.compare_gt_iff. lia.
  - cbn [String.append String.compare]. change (Ascii.compare "." ".") with Eq.
    cbv iota.
    rewrite <- (append_empty (digits 6 (microsecond a))).
    rewrite <- (append_empty (digits 6 (microsecond b))).
    rewrite digits_compare. change (10 ^ N.of_nat 6) with 1000000.
    rewrite !N.mod_small by assumption.
    now destruct (microsecond a ?= microsecond b).
Qed.

(** The text order of two [isoformat] texts is the order of the times. *)
Lemma isoformat_compare (a b : datetime) :
  in_range a = true -> in_range b = true ->
  (isoformat a ?= isoformat b)%string = datetime_compare a b.
Proof.
  unfold in_range. rewrite !andb_true_iff, !N.leb_le, !N.ltb_lt.
  intros Ha Hb. unfold isoformat, datetime_compare.
  repeat (rewrite digits_compare;
          cbn [String.append String.compare];
          try change (Ascii.compare "-" "-") with Eq;
          try change (Ascii.compare "T" "T") with Eq;
          try change (Ascii.compare ":" ":") with Eq;
          cbv iota).
  rewrite fraction_compare by lia.
  change (10 ^ N.of_nat 4) with 10000. change (10 ^ N.of_nat 2) with 100.
  rewrite !N.mod_small by lia. reflexivity.
Qed.

End IsoformatOrder.

(** ** More on ingestion *)

Section IngestionErrors.

Variable cv : conversions.

Lemma execute_insert_timestamp (ts : pyval) (k : string) (v : pyval)
    (r : row) :
  execute_insert cv ts (PStr k) v = Ok r ->
  exists t, bind_param ts = Ok t /\ text_not_null cv t = Ok (timestamp r).
Proof.
  unfold execute_insert. simpl.
  destruct (bind_param ts) as [t|]; simpl; [|discriminate].
  destruct (bind_param v) as [x|]; simpl; [|discriminate].
  destruct (text_not_null cv t) as [t'|] eqn:T; simpl; [|discriminate].
  destruct (real_not_null cv x); simpl; [|discriminate].
  intros [= <-]. now exists t.
Qed.

Lemma stage_items_timestamps (ts : pyval) (its : list (string * pyval))
    (new : list row) (r : row) :
  stage_items cv ts its [] = Ok new -> In r new ->
  exists t, bind_param ts = Ok t /\ text_not_null cv t = Ok (timestamp r).
Proof.
  revert new. induction its as [|[k v] its IH]; intros new.
  - intros [= <-] [].
  - rewrite stage_items_cons.
    destruct (execute_insert cv ts (PStr k) v) as [r0|] eqn:E; simpl;
      [|discriminate].
    destruct (stage_items cv ts its []) as [rest|]; simpl; [|discriminate].
    intros [= <-] [<-|Hin].
    + now apply execute_insert_timestamp in E.
    + now apply (IH rest).
Qed.

Lemma execute_insert_refused (ts : pyval) (k : string) (v : pyval) (e : exn) :
  storable ts = true -> refusal v = Some e ->
  execute_insert cv ts (PStr k) v = Raise e.
Proof.
  unfold execute_insert, storable, refusal. simpl.
  destruct (bind_param ts) as [[|n|f|s]|]; try discriminate; intros _;
    destruct (bind_param v) as [[|n'|f'|s']|e']; try discriminate;
    simpl; now intros [= <-].
Qed.

Lemma stage_items_refused (ts : pyval) (pre post : list (string * pyval))
    (k : string) (v : pyval) (e : exn) :
  storable ts = true ->
  forallb (fun kv => storable (snd kv)) pre = true ->
  refusal v = Some e ->
  stage_items cv ts (pre ++ (k, v) :: post) [] = Raise e.
Proof.
  intros Hts Hpre Hv. induction pre as [|[k' v'] pre IH]; simpl app.
  - rewrite stage_items_cons.
    now rewrite (execute_insert_refused ts k v e Hts Hv).
  - simpl in Hpre. apply andb_true_iff in Hpre as [Hv' Hpre].
    rewrite stage_items_cons.
    destruct (execute_insert_ok cv ts k' v' Hts Hv') as [r ->]. simpl.
    now rewrite (IH Hpre).
Qed.

(** What an accepted request did. *)
Lemma receive_telemetry_accepted (d : list (string * pyval)) (st st1 : state) :
  receive_telemetry cv (PDict d) st = ((StatusSuccess, 200%Z), st1) ->
  exists new,
    store_free cv (field d "timestamp" PNone)
      (field d "signals" (PDict [])) [] = Ok new /\
    locked st = false /\
    st1 = {| table := table st ++ new;
             emitted := emitted st ++ [event_of (PDict d)];
             locked := false |}.
Proof.
  destruct (receive_telemetry_outcome cv (PDict d) st)
    as [(ts & sg & new & Hts & Hsg & _ & _ & L & Hst & ->)
       |(b & code & lock & Hcode & ->)]; [|intros [= ? ?]; congruence].
  simpl in Hts, Hsg. fold (field d "timestamp" PNone) in Hts.
  fold (field d "signals" (PDict [])) in Hsg.
  injection Hts as <-. injection Hsg as <-.
  intros [= <-]. now exists new.
Qed.

(** While the write lock is held no ingestion is accepted. *)
Lemma receive_telemetry_busy (payload : pyval) (st : state) :
  locked st = true ->
  code_of (receive_telemetry cv payload st) <> 200%Z.
Proof.
  intros L.
  destruct (receive_telemetry_outcome cv payload st)
    as [(ts & sg & new & _ & _ & _ & _ & L' & _)
       |(b & code & lock & Hcode & ->)]; [congruence|exact Hcode].
Qed.

End IngestionErrors.

(** X1: a body that is not a JSON object, and a body whose signals are
    true but not a mapping (a number, a string, a list), are answered 500
    with the [AttributeError] of the missing method; nothing is written and
    nothing is emitted. *)
Theorem receive_telemetry_attribute_error (cv : conversions)
    (payload : pyval) (st : state) :
  (forall d, payload <> PDict d) \/
  (exists d,
      payload = PDict d /\
      truthy (field d "timestamp" PNone) = true /\
      truthy (field d "signals" (PDict [])) = true /\
      forall its, field d "signals" (PDict []) <> PDict its) ->
  receive_telemetry cv payload st =
  ((ErrorMessage AttributeError, 500%Z), st).
Proof.
  intros [H|(d & -> & T1 & T2 & H)].
  - now apply receive_telemetry_not_dict.
  - unfold receive_telemetry, get. simpl.
    fold (field d "timestamp" PNone). fold (field d "signals" (PDict [])).
    rewrite T1, T2. simpl. unfold store_telemetry.
    destruct (field d "signals" (PDict [])) as [| | | | | |its];
      try (simpl; now rewrite state_eta).
    now destruct (H its).
Qed.

(** X2: a batch that [store_telemetry] accepts adds one row for each item
    of the mapping, in the order of the mapping and under its names, after
    the rows that were there; all its rows carry one timestamp, the given
    text when the timestamp is a string. *)
Theorem store_telemetry_one_row_per_item (cv : conversions) (ts : pyval)
    (its : list (string * pyval)) (busy : bool) (db db' : list row) :
  fst (store_telemetry cv ts (PDict its) busy db) = Ok db' ->
  exists new,
    db' = db ++ new /\
    map signal_name new = map fst its /\
    (forall r1 r2, In r1 new -> In r2 new -> timestamp r1 = timestamp r2) /\
    (forall s, ts = PStr s -> Forall (fun r => timestamp r = s) new).
Proof.
  intros H. apply store_telemetry_ok in H. revert H.
  rewrite store_free_app. unfold store_free at 1. simpl.
  destruct (stage_items cv ts its []) as [new|] eqn:E; simpl; [|discriminate].
  intros [= <-]. exists new. split; [reflexivity|].
  split; [now apply (stage_items_names cv ts)|]. split.
  - intros r1 r2 H1 H2.
    destruct (stage_items_timestamps cv ts its new r1 E H1) as (t1 & B1 & T1).
    destruct (stage_items_timestamps cv ts its new r2 E H2) as (t2 & B2 & T2).
    rewrite B1 in B2. inversion B2. subst t2. rewrite T1 in T2.
    now inversion T2.
  - intros s ->. apply Forall_forall. intros r Hr.
    destruct (stage_items_timestamps cv (PStr s) its new r E Hr)
      as (t & B & T).
    simpl in B. inversion B. subst t. simpl in T. now inversion T.
Qed.

(** X3: when no connection holds the write lock and the timestamp is one
    the table takes, the first value of the mapping that its column refuses
    decides the answer: 500 with the exception of that value (the
    binding's, or the constraint's for a null or a NaN), and no row of the
    batch is written, those before it included. The connection of the
    batch is left open, and it holds the write lock unless the refused
    value is the first of the mapping and is refused by its binding; while
    it holds it no ingestion is accepted, whatever its body; once the
    connection is collected the state is the one before the batch. *)
Theorem first_refused_value_is_the_error (cv : conversions)
    (d : list (string * pyval)) (st : state)
    (pre post : list (string * pyval)) (k : string) (v : pyval) (e : exn) :
  locked st = false ->
  truthy (field d "timestamp" PNone) = true ->
  storable (field d "timestamp" PNone) = true ->
  field d "signals" (PDict []) = PDict (pre ++ (k, v) :: post) ->
  forallb (fun kv => storable (snd kv)) pre = true ->
  refusal v = Some e ->
  let out := receive_telemetry cv (PDict d) st in
  let held :=
    match pre with
    | [] => match bind_param v with Ok _ => true | Raise _ => false end
    | _ :: _ => true
    end in
  out =
  ((ErrorMessage e, 500%Z),
   {| table := table st; emitted := emitted st; locked := held |}) /\
  (held = true ->
   forall payload,
     code_of (receive_telemetry cv payload (state_of out)) <> 200%Z) /\
  collect (state_of out) = st.
Proof.
  intros L T1 S1 Hsg Hpre Hv. cbv zeta.
  rewrite (receive_telemetry_dict cv d st L), T1, Hsg.
  assert (T2 : truthy (PDict (pre ++ (k, v) :: post)) = true)
    by now destruct pre.
  rewrite T2. simpl. unfold store_free. simpl.
  rewrite (stage_items_refused cv _ pre post k v e S1 Hpre Hv). simpl.
  assert (B : first_binds (field d "timestamp" PNone) (pre ++ (k, v) :: post)
              = match pre with
                | [] => match bind_param v with
                        | Ok _ => true
                        | Raise _ => false
                        end
                | _ :: _ => true
                end).
  { unfold storable in S1.
    destruct pre as [|[k0 v0] pre]; simpl; unfold binds; simpl.
    - destruct (bind_param (field d "timestamp" PNone)); [|discriminate].
      now destruct (bind_param v).
    - simpl in Hpre. apply andb_true_iff in Hpre as [S0 _].
      unfold storable in S0.
      destruct (bind_param (field d "timestamp" PNone)); [|discriminate].
      now destruct (bind_param v0). }
  rewrite B. split; [reflexivity|]. unfold state_of. simpl. split.
  - intros H payload. apply receive_telemetry_busy. simpl. exact H.
  - unfold collect. simpl. now rewrite <- L, state_eta.
Qed.

Lemma receive_telemetry_attribute_error_witness :
  receive_telemetry constant_conversions (PList [PInt 1]) sample_state =
  ((ErrorMessage AttributeError, 500%Z), sample_state) /\
  receive_telemetry constant_conversions
    (PDict [("timestamp", PStr "2024-01-01T00:00:00");
            ("signals", PList [PFloat 1.5])]) sample_state =
  ((ErrorMessage AttributeError, 500%Z), sample_state).
Proof.
  split.
  - apply (receive_telemetry_attribute_error constant_conversions).
    left. discriminate.
  - apply (receive_telemetry_attribute_error constant_conversions).
    right. eexists. split; [reflexivity|]. repeat split. discriminate.
Defined.

Lemma store_telemetry_one_row_per_item_witness :
  fst (store_telemetry constant_conversions (PStr "2024-01-01T00:00:00")
         (PDict sample_signals) false sample_table) =
  Ok (sample_table ++
      map (row_of_number "2024-01-01T00:00:00") sample_signals) /\
  exists new,
    sample_table ++ map (row_of_number "2024-01-01T00:00:00") sample_signals =
    sample_table ++ new /\
    map signal_name new = map fst sample_signals /\
    (forall r1 r2, In r1 new -> In r2 new -> timestamp r1 = timestamp r2) /\
    (forall s, PStr "2024-01-01T00:00:00" = PStr s ->
               Forall (fun r => timestamp r = s) new).
Proof.
  split; [reflexivity|].
  apply (store_telemetry_one_row_per_item constant_conversions
           (PStr "2024-01-01T00:00:00") sample_signals false sample_table).
  reflexivity.
Defined.

Lemma first_refused_value_is_the_error_witness :
  let out :=
    receive_telemetry constant_conversions
      (PDict [("timestamp", PStr "2024-01-01T00:00:00");
              ("signals",
               PDict [("a", PFloat 1.5); ("b", PNone); ("c", PList [])])])
      sample_state in
  refusal PNone = Some IntegrityError /\
  locked sample_state = false /\
  out =
  ((ErrorMessage IntegrityError, 500%Z),
   {| table := table sample_state; emitted := emitted sample_state;
      locked := true |}) /\
  (true = true ->
   forall payload,
     code_of (receive_telemetry constant_conversions payload (state_of out))
     <> 200%Z) /\
  collect (state_of out) = sample_state.
Proof.
  cbv zeta. split; [reflexivity|]. split; [reflexivity|].
  apply (first_refused_value_is_the_error constant_conversions
           [("timestamp", PStr "2024-01-01T00:00:00");
            ("signals",
             PDict [("a", PFloat 1.5); ("b", PNone); ("c", PList [])])]
           sample_state [("a", PFloat 1.5)] [("c", PList [])] "b" PNone
           IntegrityError); reflexivity.
Defined.

(** ** More on the query *)

Section QueryFacts.

Lemma filter_none {A : Type} (P : A -> bool) (l : list A) :
  (forall x, In x l -> P x = false) -> filter P l = [].
Proof.
  induction l as [|x l IH]; simpl; [reflexivity|]. intros H.
  rewrite (H x) by now left. apply IH. intros y Hy. apply H. now right.
Qed.

(** A list in order splits at any bound: the rows below it, then the rows
    at or above it. *)
Lemma sorted_split {A : Type} (key : A -> string) (c : string) (l : list A) :
  StronglySorted (le_by key) l ->
  l = filter (fun x => (key x <? c)%string) l ++
      filter (fun x => (c <=? key x)%string) l.
Proof.
  induction 1 as [|x l Hl IH Hx]; [reflexivity|]. simpl.
  destruct (c <=? key x)%string eqn:E.
  - assert (L : (key x <? c)%string = false).
    { destruct (key x <? c)%string eqn:L; [|reflexivity].
      apply ltb_iff_leb_neq in L as [L Hne].
      destruct Hne. now apply String.leb_antisym. }
    rewrite L.
    rewrite (filter_none (fun y => (key y <? c)%string) l).
    + simpl. f_equal. symmetry. apply filter_all.
      intros y Hy. rewrite Forall_forall in Hx.
      eapply leb_trans; [exact E|]. now apply Hx.
    + intros y Hy. rewrite Forall_forall in Hx.
      destruct (key y <? c)%string eqn:L'; [|reflexivity].
      apply ltb_iff_leb_neq in L' as [L' Hne]. destruct Hne.
      apply String.leb_antisym; [exact L'|].
      eapply leb_trans; [exact E|]. now apply Hx.
  - rewrite (leb_false_ltb _ _ E). simpl. now f_equal.
Qed.

Lemma filter_filter_later (c1 c2 : string) (db : list row) :
  (c1 <=? c2)%string = true ->
  filter (fun r => (c2 <=? timestamp r)%string)
    (filter (fun r => (c1 <=? timestamp r)%string) db) =
  filter (fun r => (c2 <=? timestamp r)%string) db.
Proof.
  intros H. induction db as [|r db IH]; simpl; [reflexivity|].
  destruct (c2 <=? timestamp r)%string eqn:E2.
  - rewrite (leb_trans c1 c2 (timestamp r) H E2). simpl.
    rewrite E2. now f_equal.
  - destruct (c1 <=? timestamp r)%string; simpl; [now rewrite E2|exact IH].
Qed.

Lemma select_since_later (c1 c2 : string) (db : list row) :
  (c1 <=? c2)%string = true ->
  select_since db c2 =
  filter (fun r => (c2 <=? timestamp r)%string) (select_since db c1).
Proof.
  intros H. unfold select_since.
  now rewrite filter_order_by, filter_filter_later.
Qed.

Lemma grouped_key_In (rows : list row) (k : string) :
  In k (map fst (grouped rows)) <-> In k (map signal_name rows).
Proof. rewrite grouped_keys. apply distinct_In. Qed.

Lemma append_at_points (data : series) (k : string) (p : point) :
  In k (map fst data) ->
  Permutation (List.concat (map snd (append_at data k p)))
              (p :: List.concat (map snd data)).
Proof.
  induction data as [|[k' l] data IH]; simpl; [tauto|].
  destruct (String.eqb_spec k' k) as [->|Hne]; simpl.
  - intros _. rewrite <- app_assoc. simpl.
    rewrite <- Permutation_middle. reflexivity.
  - intros [E|Hin]; [congruence|]. rewrite (IH Hin).
    change (p :: l ++ List.concat (map snd data))
      with ((p :: l) ++ List.concat (map snd data)).
    change (l ++ p :: List.concat (map snd data))
      with (l ++ [p] ++ List.concat (map snd data)).
    rewrite app_assoc. apply Permutation_app_tail.
    symmetry. apply Permutation_cons_append.
Qed.

(** A turn of the grouping loop adds the point of its row, and only it. *)
Lemma group_step_points (data : series) (r : row) :
  Permutation (List.concat (map snd (group_step data r)))
              (point_of r :: List.concat (map snd data)).
Proof.
  unfold group_step.
  destruct (contains data (signal_name r)) eqn:C; simpl.
  - apply append_at_points. now apply contains_In.
  - assert (Hn : ~ In (signal_name r) (map fst data)).
    { intros H. apply contains_In in H. congruence. }
    rewrite setitem_empty_fresh, append_at_fresh by exact Hn.
    rewrite map_app, List.concat_app. simpl.
    symmetry. apply Permutation_cons_append.
Qed.

Lemma fold_group_step_points (rows : list row) (data : series) :
  Permutation (List.concat (map snd (fold_left group_step rows data)))
              (List.concat (map snd data) ++ map point_of rows).
Proof.
  revert data. induction rows as [|r rows IH]; intros data; simpl.
  - now rewrite app_nil_r.
  - rewrite IH, group_step_points. simpl.
    apply Permutation_middle.
Qed.

End QueryFacts.

(** X4: of two cutoffs, the later one returns the end of what the earlier
    one returns: the same rows in the same order, without those before the
    later cutoff; and so for the points under every signal name. Moving
    the cutoff never reorders what is returned. *)
Theorem later_cutoff_returns_a_suffix (db : list row) (c1 c2 : string) :
  (c1 <=? c2)%string = true ->
  exists older,
    select_since db c1 = older ++ select_since db c2 /\
    Forall (fun r => (timestamp r <? c2)%string = true) older /\
    forall k,
      points_of (get_recent_telemetry db c1) k =
      map point_of (rows_of k older) ++
      points_of (get_recent_telemetry db c2) k.
Proof.
  intros H.
  exists (filter (fun r => (timestamp r <? c2)%string) (select_since db c1)).
  assert (E : select_since db c1 =
              filter (fun r => (timestamp r <? c2)%string) (select_since db c1)
              ++ select_since db c2).
  { rewrite (select_since_later c1 c2 db H).
    apply (sorted_split timestamp c2). apply (order_by_sorted timestamp). }
  split; [exact E|]. split.
  - apply Forall_forall. intros r Hr. now apply filter_In in Hr.
  - intros k. rewrite !get_recent_telemetry_grouped, !points_of_grouped.
    rewrite <- map_app, <- rows_of_app. now rewrite <- E.
Qed.

(** X5: a signal name is a key of the historical result exactly when one
    of its stored rows is at or after the cutoff; every key is among the
    listed signals; and the result is empty exactly when every stored row
    is before the cutoff. *)
Theorem get_recent_telemetry_keys (db : list row) (cutoff_time : string) :
  let data := get_recent_telemetry db cutoff_time in
  (forall k, In k (map fst data) <->
             exists r, In r db /\ signal_name r = k /\
                       (cutoff_time <=? timestamp r)%string = true) /\
  (forall k, In k (map fst data) -> In k (select_distinct_signal_names db)) /\
  (data = [] <->
   forall r, In r db -> (timestamp r <? cutoff_time)%string = true).
Proof.
  cbv zeta. rewrite get_recent_telemetry_grouped.
  assert (K : forall k,
             In k (map fst (grouped (select_since db cutoff_time))) <->
             exists r, In r db /\ signal_name r = k /\
                       (cutoff_time <=? timestamp r)%string = true).
  { intros k. rewrite grouped_key_In, in_map_iff. split.
    - intros (r & Hk & Hr). apply select_since_In in Hr as [Hr Hc].
      now exists r.
    - intros (r & Hr & Hk & Hc). exists r. split; [exact Hk|].
      now apply select_since_In. }
  split; [exact K|]. split.
  - intros k Hk. apply K in Hk as (r & Hr & Hk & _).
    apply select_distinct_signal_names_In. now exists r.
  - split.
    + intros E r Hr.
      destruct (cutoff_time <=? timestamp r)%string eqn:C;
        [|now apply leb_false_ltb].
      assert (Hk : In (signal_name r)
                      (map fst (grouped (select_since db cutoff_time)))).
      { apply K. now exists r. }
      rewrite E in Hk. destruct Hk.
    + intros H.
      destruct (grouped (select_since db cutoff_time)) as [|[k l] data] eqn:E;
        [reflexivity|].
      assert (Hk : In k (map fst ((k, l) :: data))) by now left.
      apply K in Hk as (r & Hr & _ & C). apply H in Hr.
      apply ltb_iff_leb_neq in Hr as [L Hne]. destruct Hne.
      now apply String.leb_antisym.
Qed.

(** X6: the grouping neither loses nor repeats a row: the points of all
    the groups together are the points of the selected rows, as many as
    there are stored rows at or after the cutoff. *)
Theorem get_recent_telemetry_keeps_every_row (db : list row)
    (cutoff_time : string) :
  let points := List.concat (map snd (get_recent_telemetry db cutoff_time)) in
  Permutation points (map point_of (select_since db cutoff_time)) /\
  List.length points =
  List.length (filter (fun r => (cutoff_time <=? timestamp r)%string) db).
Proof.
  cbv zeta.
  assert (P : Permutation
                (List.concat (map snd (get_recent_telemetry db cutoff_time)))
                (map point_of (select_since db cutoff_time))).
  { unfold get_recent_telemetry. now rewrite fold_group_step_points. }
  split; [exact P|].
  rewrite (Permutation_length P), List.length_map. unfold select_since.
  apply Permutation_length, order_by_perm.
Qed.

Lemma later_cutoff_returns_a_suffix_witness :
  ("2023-01-01T00:00:00" <=? "2024-01-01T00:00:00")%string = true /\
  exists older,
    select_since sample_table "2023-01-01T00:00:00" =
    older ++ select_since sample_table "2024-01-01T00:00:00" /\
    Forall (fun r => (timestamp r <? "2024-01-01T00:00:00")%string = true)
           older /\
    forall k,
      points_of (get_recent_telemetry sample_table "2023-01-01T00:00:00") k =
      map point_of (rows_of k older) ++
      points_of (get_recent_telemetry sample_table "2024-01-01T00:00:00") k.
Proof.
  split; [reflexivity|].
  apply (later_cutoff_returns_a_suffix sample_table
           "2023-01-01T00:00:00" "2024-01-01T00:00:00").
  reflexivity.
Defined.

Lemma get_recent_telemetry_keys_witness :
  In "c" (map fst (get_recent_telemetry sample_table "2024-01-01T00:00:00")) /\
  In "c" (select_distinct_signal_names sample_table) /\
  get_recent_telemetry sample_table "3000-01-01T00:00:00" = [].
Proof.
  assert (H : In "c" (map fst (get_recent_telemetry sample_table
                                 "2024-01-01T00:00:00")))
    by (left; reflexivity).
  split; [exact H|]. split.
  - exact (proj1 (proj2 (get_recent_telemetry_keys sample_table
                           "2024-01-01T00:00:00")) "c" H).
  - apply (proj2 (proj2 (get_recent_telemetry_keys sample_table
                           "3000-01-01T00:00:00"))).
    intros r [<-|[<-|[<-|[]]]]; reflexivity.
Defined.

(** ** Ingestion and the later reads *)

Section IngestThenRead.

Variable cv : conversions.

(** The rows of an accepted request: under the names of its mapping. *)
Lemma receive_telemetry_stored_names (d : list (string * pyval))
    (st st1 : state) (its : list (string * pyval)) :
  receive_telemetry cv (PDict d) st = ((StatusSuccess, 200%Z), st1) ->
  dict_get d "signals" = Some (PDict its) ->
  exists new,
    table st1 = table st ++ new /\
    emitted st1 = emitted st ++ [event_of (PDict d)] /\
    stage_items cv (field d "timestamp" PNone) its [] = Ok new /\
    map signal_name new = map fst its.
Proof.
  intros H Hsg.
  apply receive_telemetry_accepted in H as (new & S & _ & ->).
  unfold field in S at 2. rewrite Hsg in S.
  unfold store_free in S. simpl in S.
  destruct (stage_items cv (field d "timestamp" PNone) its [])
    as [rows|] eqn:E; [|discriminate].
  simpl in S. inversion S. subst new.
  exists rows. repeat split; auto.
  now apply (stage_items_names cv (field d "timestamp" PNone)).
Qed.

(** And at its timestamp, when that is a text. *)
Lemma receive_telemetry_stored (d : list (string * pyval)) (st st1 : state)
    (ts : string) (its : list (string * pyval)) :
  receive_telemetry cv (PDict d) st = ((StatusSuccess, 200%Z), st1) ->
  dict_get d "timestamp" = Some (PStr ts) ->
  dict_get d "signals" = Some (PDict its) ->
  exists new,
    table st1 = table st ++ new /\
    map signal_name new = map fst its /\
    Forall (fun r => timestamp r = ts) new.
Proof.
  intros H Hts Hsg.
  destruct (receive_telemetry_stored_names d st st1 its H Hsg)
    as (new & T & _ & I & N).
  exists new. repeat split; auto.
  unfold field in I. rewrite Hts in I.
  apply Forall_forall. intros r Hr.
  destruct (stage_items_timestamps cv (PStr ts) its new r I Hr)
    as (t & B & Tx).
  simpl in B. inversion B. subst t. simpl in Tx. now inversion Tx.
Qed.

Lemma apply_event_accepted (payload : pyval) (st st1 : state) :
  receive_telemetry cv payload st = ((StatusSuccess, 200%Z), st1) ->
  apply_event cv (table st) (event_of payload) = table st1 /\
  emitted st1 = emitted st ++ [event_of payload] /\
  (List.length (table st) < List.length (table st1))%nat.
Proof.
  intros H.
  destruct (receive_telemetry_outcome cv payload st)
    as [(ts & sg & new & Hts & Hsg & _ & T2 & _ & S & E)
       |(b & code & lock & Hc & E)];
    rewrite E in H; [|inversion H; congruence].
  inversion H. subst st1. clear H E. simpl.
  unfold apply_event, event_of. simpl. rewrite Hts, Hsg. simpl.
  rewrite store_telemetry_free, S. simpl. repeat split.
  rewrite List.length_app.
  pose proof (store_free_rows cv ts sg new T2 S) as Hne.
  destruct new; [congruence|]. simpl. lia.
Qed.

Lemma replay_snoc (events : list (string * pyval)) (ev : string * pyval) :
  replay cv (events ++ [ev]) = apply_event cv (replay cv events) ev.
Proof. unfold replay. now rewrite fold_left_app. Qed.

(** A request keeps the table equal to the replay of the events, and the
    events no more than the rows. *)
Lemma handle_keeps_replay (rq : request) (st : state) :
  replay cv (emitted st) = table st ->
  (List.length (emitted st) <= List.length (table st))%nat ->
  replay cv (emitted (snd (handle cv rq st))) = table (snd (handle cv rq st)) /\
  (List.length (emitted (snd (handle cv rq st))) <=
   List.length (table (snd (handle cv rq st))))%nat.
Proof.
  intros R L. destruct rq as [payload|[c|e]| |]; simpl; auto.
  destruct (receive_telemetry_outcome cv payload st)
    as [(ts & sg & new & Hts & Hsg & T1 & T2 & _ & S & E)
       |(b & code & lock & Hc & E)].
  - destruct (apply_event_accepted payload st _ E) as (A & Em & Len).
    rewrite E in *. simpl in *. split.
    + now rewrite replay_snoc, R.
    + rewrite List.length_app. simpl. lia.
  - rewrite E. simpl. auto.
Qed.

End IngestThenRead.

(** X7: an accepted ingestion leaves the points of every signal name that
    is not in its mapping as they were, and a batch whose timestamp is
    before the cutoff (as text) leaves the whole historical result as it
    was. *)
Theorem ingest_leaves_the_rest (cv : conversions) (d : list (string * pyval))
    (st st1 : state) (ts : string) (its : list (string * pyval))
    (cutoff_time : string) :
  receive_telemetry cv (PDict d) st = ((StatusSuccess, 200%Z), st1) ->
  dict_get d "timestamp" = Some (PStr ts) ->
  dict_get d "signals" = Some (PDict its) ->
  (forall k, ~ In k (map fst its) ->
     points_of (get_recent_telemetry (table st1) cutoff_time) k =
     points_of (get_recent_telemetry (table st) cutoff_time) k) /\
  ((cutoff_time <=? ts)%string = false ->
   get_recent_telemetry (table st1) cutoff_time =
   get_recent_telemetry (table st) cutoff_time).
Proof.
  intros H Hts Hsg.
  destruct (receive_telemetry_stored cv d st st1 ts its H Hts Hsg)
    as (new & -> & N & T).
  split.
  - intros k Hk.
    rewrite !get_recent_telemetry_grouped, !points_of_grouped.
    rewrite !rows_of_select_since, filter_app, rows_of_app.
    rewrite (rows_of_absent k (filter _ new)); [now rewrite app_nil_r|].
    intros Hin. apply Hk. rewrite <- N.
    apply in_map_iff in Hin as (r & E & Hr). apply filter_In in Hr as [Hr _].
    apply in_map_iff. now exists r.
  - intros C. unfold get_recent_telemetry, select_since.
    rewrite filter_app.
    rewrite (filter_none _ new); [now rewrite app_nil_r|].
    intros r Hr. rewrite Forall_forall in T. now rewrite (T r Hr).
Qed.

(** X8: after an accepted ingestion the listed signals are those listed
    before together with the names of its mapping. *)
Theorem signals_after_ingest (cv : conversions) (d : list (string * pyval))
    (st st1 : state) (its : list (string * pyval)) :
  receive_telemetry cv (PDict d) st = ((StatusSuccess, 200%Z), st1) ->
  dict_get d "signals" = Some (PDict its) ->
  forall n,
    In n (select_distinct_signal_names (table st1)) <->
    In n (select_distinct_signal_names (table st)) \/ In n (map fst its).
Proof.
  intros H Hsg n.
  destruct (receive_telemetry_stored_names cv d st st1 its H Hsg)
    as (new & -> & _ & _ & N).
  rewrite !select_distinct_signal_names_In, <- N, in_map_iff. split.
  - intros (r & Hr & E). apply in_app_iff in Hr as [Hr|Hr].
    + left. now exists r.
    + right. now exists r.
  - intros [(r & Hr & E)|(r & E & Hr)]; exists r;
      (split; [apply in_app_iff; auto|exact E]).
Qed.

(** X9: the table never departs from what was announced: along every
    sequence of requests, storing the emitted events one after the other,
    as the backend stores a batch, rebuilds the table, and there are no
    more events than rows. *)
Theorem table_is_replay_of_events (cv : conversions) (rqs : list request)
    (st : state) :
  replay cv (emitted st) = table st ->
  (List.length (emitted st) <= List.length (table st))%nat ->
  replay cv (emitted (run cv rqs st)) = table (run cv rqs st) /\
  (List.length (emitted (run cv rqs st)) <=
   List.length (table (run cv rqs st)))%nat.
Proof.
  revert st. induction rqs as [|rq rqs IH]; intros st R L; [now split|].
  unfold run. simpl. fold (run cv rqs (snd (handle cv rq st))).
  destruct (handle_keeps_replay cv rq st R L) as [R' L'].
  now apply IH.
Qed.

Lemma ingest_leaves_the_rest_witness :
  let d := [("timestamp", PStr "2022-06-01T00:00:00");
            ("signals", PDict sample_signals)] in
  let st1 := state_of (receive_telemetry constant_conversions (PDict d)
                         sample_state) in
  ~ In "c" (map fst sample_signals) /\
  ("2023-01-01T00:00:00" <=? "2022-06-01T00:00:00")%string = false /\
  points_of (get_recent_telemetry (table st1) "2023-01-01T00:00:00") "c" =
  points_of (get_recent_telemetry (table sample_state)
               "2023-01-01T00:00:00") "c" /\
  get_recent_telemetry (table st1) "2023-01-01T00:00:00" =
  get_recent_telemetry (table sample_state) "2023-01-01T00:00:00".
Proof.
  cbv zeta.
  split; [simpl; intuition discriminate|]. split; [reflexivity|].
  pose proof (ingest_leaves_the_rest constant_conversions
                [("timestamp", PStr "2022-06-01T00:00:00");
                 ("signals", PDict sample_signals)]
                sample_state _ "2022-06-01T00:00:00" sample_signals
                "2023-01-01T00:00:00" eq_refl eq_refl eq_refl) as [F O].
  split.
  - apply F. simpl. intuition discriminate.
  - apply O. reflexivity.
Defined.

Lemma signals_after_ingest_witness :
  let d := [("timestamp", PStr "2022-06-01T00:00:00");
            ("signals", PDict sample_signals)] in
  let st1 := state_of (receive_telemetry constant_conversions (PDict d)
                         sample_state) in
  code_of (receive_telemetry constant_conversions (PDict d) sample_state) =
  200%Z /\
  forall n,
    In n (select_distinct_signal_names (table st1)) <->
    In n (select_distinct_signal_names sample_table) \/
    In n (map fst sample_signals).
Proof.
  cbv zeta. split; [reflexivity|].
  apply (signals_after_ingest constant_conversions
           [("timestamp", PStr "2022-06-01T00:00:00");
            ("signals", PDict sample_signals)] sample_state _ sample_signals);
    reflexivity.
Defined.

Lemma table_is_replay_of_events_witness :
  let rqs := [PostTelemetry (batch "2024-01-01T00:00:00" sample_signals);
              GetSignals;
              PostTelemetry (PDict [("signals", PDict sample_signals)]);
              PostTelemetry (batch "2024-01-01T00:00:01" sample_signals)] in
  let st := run constant_conversions rqs empty_state in
  replay constant_conversions (emitted empty_state) = table empty_state /\
  replay constant_conversions (emitted st) = table st /\
  (List.length (emitted st) <= List.length (table st))%nat.
Proof.
  cbv zeta. split; [reflexivity|].
  apply (table_is_replay_of_events constant_conversions).
  - reflexivity.
  - simpl. lia.
Defined.

(** ** Times, the producer and the query *)

Section TimeFacts.

Lemma then_compare_eq (c rest : comparison) :
  then_compare c rest = Eq -> c = Eq /\ rest = Eq.
Proof. destruct c; simpl; try discriminate. auto. Qed.

Lemma datetime_compare_eq (a b : datetime) :
  datetime_compare a b = Eq -> a = b.
Proof.
  unfold datetime_compare. intros H.
  repeat (apply then_compare_eq in H as [?H H]).
  repeat match goal with
         | E : (_ ?= _)%N = Eq |- _ => apply N.compare_eq in E
         end.
  destruct a, b; simpl in *. now subst.
Qed.

Lemma isoformat_leb (a b : datetime) :
  in_range a = true -> in_range b = true ->
  (isoformat a <=? isoformat b)%string = true <-> datetime_compare a b <> Gt.
Proof.
  intros Ha Hb. unfold String.leb. rewrite (isoformat_compare a b Ha Hb).
  destruct (datetime_compare a b); split; congruence.
Qed.

Lemma isoformat_not_empty (d : datetime) : isoformat d <> "".
Proof. discriminate. Qed.

Lemma valid_number_float (f : float) :
  valid_number (PFloat f) = negb (PrimFloat.is_nan f).
Proof.
  unfold valid_number, storable. simpl. now destruct (PrimFloat.is_nan f).
Qed.

End TimeFacts.

(** X10: the texts of two times stand in the order of the times: for
    [datetime]s within the constructor's ranges, [isoformat] keeps [<=]
    and [<] under the comparison of text, and is one-to-one. *)
Theorem isoformat_orders_as_time (a b : datetime) :
  in_range a = true -> in_range b = true ->
  ((isoformat a <=? isoformat b)%string = true <->
   datetime_compare a b <> Gt) /\
  ((isoformat a <? isoformat b)%string = true <->
   datetime_compare a b = Lt) /\
  (isoformat a = isoformat b -> a = b).
Proof.
  intros Ha Hb. split; [now apply isoformat_leb|]. split.
  - unfold String.ltb. rewrite (isoformat_compare a b Ha Hb).
    destruct (datetime_compare a b); split; congruence.
  - intros E. apply datetime_compare_eq.
    rewrite <- (isoformat_compare a b Ha Hb), E. apply compare_refl.
Qed.

(** X11: for a stored row stamped with the text of a time, the historical
    query with the text of a cutoff time selects it, and returns its point
    under its signal name, exactly when the time is not before the
    cutoff. *)
Theorem query_selects_by_time (db : list row) (cutoff t : datetime)
    (r : row) :
  in_range cutoff = true -> in_range t = true ->
  In r db -> timestamp r = isoformat t ->
  (In r (select_since db (isoformat cutoff)) <->
   datetime_compare cutoff t <> Gt) /\
  (In (point_of r)
      (points_of (get_recent_telemetry db (isoformat cutoff))
                 (signal_name r)) <->
   datetime_compare cutoff t <> Gt).
Proof.
  intros Hc Ht Hin Hts.
  rewrite <- (isoformat_leb cutoff t Hc Ht), <- Hts.
  split.
  - rewrite select_since_In. tauto.
  - rewrite get_recent_telemetry_grouped, points_of_grouped, in_map_iff.
    split.
    + intros (r' & E & Hr'). apply rows_of_In in Hr' as [Hr' _].
      apply select_since_In in Hr' as [_ C].
      apply (f_equal point_timestamp) in E. simpl in E. now rewrite <- E.
    + intros C. exists r. split; [reflexivity|].
      apply rows_of_In. split; [|reflexivity]. now apply select_since_In.
Qed.

(** X12: what the producer posts is accepted when no connection left open
    holds the write lock. Its payload, stamped with the text of the time
    and carrying five readings none of which is NaN, is answered 200,
    stored as five rows in the producer's order and announced; and a
    historical query whose cutoff time is not after that time returns each
    reading under its name: the float that was posted, but for a zero,
    which comes back without its sign. *)
Theorem producer_payload_is_accepted (cv : conversions)
    (now cutoff : datetime) (sine cosine noise walk damped : float)
    (st : state) :
  locked st = false ->
  in_range now = true -> in_range cutoff = true ->
  datetime_compare cutoff now <> Gt ->
  forallb (fun f => negb (PrimFloat.is_nan f))
          [sine; cosine; noise; walk; damped] = true ->
  let payload := producer_payload now sine cosine noise walk damped in
  let signals := producer_signals sine cosine noise walk damped in
  let st1 := {| table := table st ++ map (row_of_number (isoformat now)) signals;
                emitted := emitted st ++ [event_of payload];
                locked := false |} in
  receive_telemetry cv payload st = ((StatusSuccess, 200%Z), st1) /\
  map signal_name (map (row_of_number (isoformat now)) signals) =
  ["sine_wave"; "cosine_wave"; "random_noise"; "random_walk";
   "damped_oscillation"] /\
  forall name f, In (name, PFloat f) signals ->
    In {| point_timestamp := isoformat now;
          point_value := SReal (if PrimFloat.eqb f 0 then 0 else f) |}
       (points_of (get_recent_telemetry (table st1) (isoformat cutoff)) name).
Proof.
  intros L Hnow Hcut Hle Hnan. cbv zeta.
  assert (V : forallb (fun kv => valid_number (snd kv))
                (producer_signals sine cosine noise walk damped) = true).
  { simpl in *. now rewrite !valid_number_float. }
  split.
  - apply (receive_telemetry_numbers cv _ st (isoformat now)
             (producer_signals sine cosine noise walk damped));
      try reflexivity; try discriminate; [exact L|exact V].
  - split; [reflexivity|]. intros name f Hin. simpl table.
    eapply Add_in.
    + apply (points_of_after_batch (table st) (isoformat now)
               (isoformat cutoff)
               (producer_signals sine cosine noise walk damped)
               name (PFloat f)).
      * repeat constructor; simpl; intuition discriminate.
      * exact Hin.
      * now apply isoformat_leb.
    + now left.
Qed.

Lemma isoformat_orders_as_time_witness :
  let a := {| year := 2024; month := 1; day := 1; hour := 0; minute := 0;
              second := 0; microsecond := 0 |} in
  let b := {| year := 2024; month := 1; day := 1; hour := 0; minute := 0;
              second := 0; microsecond := 250000 |} in
  isoformat a = "2024-01-01T00:00:00" /\
  isoformat b = "2024-01-01T00:00:00.250000" /\
  ((isoformat a <=? isoformat b)%string = true <->
   datetime_compare a b <> Gt) /\
  ((isoformat a <? isoformat b)%string = true <->
   datetime_compare a b = Lt) /\
  (isoformat a = isoformat b -> a = b).
Proof.
  cbv zeta. split; [reflexivity|]. split; [reflexivity|].
  apply isoformat_orders_as_time; reflexivity.
Defined.

Lemma query_selects_by_time_witness :
  let cutoff := {| year := 2024; month := 6; day := 1; hour := 12;
                   minute := 0; second := 0; microsecond := 0 |} in
  let t := {| year := 2999; month := 1; day := 1; hour := 0; minute := 0;
              second := 0; microsecond := 0 |} in
  let r := {| timestamp := "2999-01-01T00:00:00"; signal_name := "c";
              value := SReal 9 |} in
  datetime_compare cutoff t = Lt /\
  (In r (select_since sample_table (isoformat cutoff)) <->
   datetime_compare cutoff t <> Gt) /\
  (In (point_of r)
      (points_of (get_recent_telemetry sample_table (isoformat cutoff))
                 (signal_name r)) <->
   datetime_compare cutoff t <> Gt).
Proof.
  cbv zeta. split; [reflexivity|].
  apply query_selects_by_time; try reflexivity.
  right. left. reflexivity.
Defined.

Lemma producer_payload_is_accepted_witness :
  let now := {| year := 2024; month := 1; day := 1; hour := 0; minute := 0;
                second := 1; microsecond := 500 |} in
  let cutoff := {| year := 2023; month := 12; day := 31; hour := 23;
                   minute := 0; second := 1; microsecond := 500 |} in
  let payload := producer_payload now 0.5 8 (-1.25) 0.25 (-0) in
  let signals := producer_signals 0.5 8 (-1.25) 0.25 (-0) in
  let st1 := {| table := table sample_state ++
                         map (row_of_number (isoformat now)) signals;
                emitted := emitted sample_state ++ [event_of payload];
                locked := false |} in
  receive_telemetry constant_conversions payload sample_state =
  ((StatusSuccess, 200%Z), st1) /\
  map signal_name (map (row_of_number (isoformat now)) signals) =
  ["sine_wave"; "cosine_wave"; "random_noise"; "random_walk";
   "damped_oscillation"] /\
  forall name f, In (name, PFloat f) signals ->
    In {| point_timestamp := isoformat now;
          point_value := SReal (if PrimFloat.eqb f 0 then 0 else f) |}
       (points_of (get_recent_telemetry (table st1) (isoformat cutoff)) name).
Proof.
  cbv zeta.
  apply (producer_payload_is_accepted constant_conversions
           {| year := 2024; month := 1; day := 1; hour := 0; minute := 0;
              second := 1; microsecond := 500 |}
           {| year := 2023; month := 12; day := 31; hour := 23;
              minute := 0; second := 1; microsecond := 500 |}
           0.5 8 (-1.25) 0.25 (-0) sample_state); try reflexivity.
  discriminate.
Defined.

(** ** Counting the points of a signal *)

(** X13: a signal has one point for each batch that named it: starting
    where no connection left open holds the write lock, after a series of
    posts of batches of numbers that all carry the name and are stamped at
    or after the cutoff, every post is accepted, the lock is free again,
    and the historical query returns, under that name, as many points more
    than before as there were posts. *)
Theorem series_counts_the_batches (cv : conversions)
    (bs : list (string * list (string * pyval))) (st : state)
    (cutoff_time k : string) :
  locked st = false ->
  Forall (counted_batch cutoff_time k) bs ->
  locked (run cv (posts bs) st) = false /\
  List.length (emitted (run cv (posts bs) st)) =
  (List.length (emitted st) + List.length bs)%nat /\
  List.length
    (points_of
       (get_recent_telemetry (table (run cv (posts bs) st)) cutoff_time) k) =
  (List.length (points_of (get_recent_telemetry (table st) cutoff_time) k) +
   List.length bs)%nat.
Proof.
  intros L H. revert st L.
  induction H as [|[ts its] bs (Hne & Hnd & Hnum & Hk & Hcut) Hbs IH];
    intros st L; simpl in *.
  - now rewrite !Nat.add_0_r.
  - unfold run. simpl.
    fold (run cv (posts bs)
            (snd (receive_telemetry cv (batch ts its) st))).
    assert (Hits : its <> []) by (destruct its; [destruct Hk|discriminate]).
    unfold batch at 1 2 3.
    rewrite (receive_telemetry_numbers cv
               [("timestamp", PStr ts); ("signals", PDict its)] st ts its
               L eq_refl Hne eq_refl Hits Hnum).
    cbn [snd].
    destruct (IH {| table := table st ++ map (row_of_number ts) its;
                    emitted := emitted st ++
                      [event_of (PDict [("timestamp", PStr ts);
                                        ("signals", PDict its)])];
                    locked := false |} eq_refl) as (IL & IE & IP).
    split; [exact IL|]. split.
    + rewrite IE. simpl. rewrite List.length_app. simpl. lia.
    + rewrite IP. simpl.
      apply in_map_iff in Hk as ([k' v] & <- & Hin). simpl.
      rewrite (Add_length
                 (points_of_after_batch (table st) ts cutoff_time its k' v
                    Hnd Hin Hcut)).
      lia.
Qed.

Lemma series_counts_the_batches_witness :
  let bs := [("2024-01-01T00:00:00", [("a", PFloat 0); ("b", PFloat 0)]);
             ("2024-01-01T00:00:01", [("a", PFloat 1); ("b", PFloat 2)]);
             ("2024-01-01T00:00:02", [("a", PFloat 2); ("b", PFloat 4)])] in
  locked sample_state = false /\
  Forall (counted_batch "2023-12-31T23:30:00" "a") bs /\
  locked (run constant_conversions (posts bs) sample_state) = false /\
  List.length (emitted (run constant_conversions (posts bs) sample_state)) =
  (List.length (emitted sample_state) + 3)%nat /\
  List.length
    (points_of
       (get_recent_telemetry
          (table (run constant_conversions (posts bs) sample_state))
          "2023-12-31T23:30:00") "a") =
  (List.length
     (points_of
        (get_recent_telemetry (table sample_state) "2023-12-31T23:30:00")
        "a") + 3)%nat.
Proof.
  cbv zeta.
  assert (H : Forall (counted_batch "2023-12-31T23:30:00" "a")
                [("2024-01-01T00:00:00", [("a", PFloat 0); ("b", PFloat 0)]);
                 ("2024-01-01T00:00:01", [("a", PFloat 1); ("b", PFloat 2)]);
                 ("2024-01-01T00:00:02", [("a", PFloat 2); ("b", PFloat 4)])]).
  { repeat constructor; simpl; try discriminate; intuition discriminate. }
  split; [reflexivity|]. split; [exact H|].
  exact (series_counts_the_batches constant_conversions _ sample_state
           "2023-12-31T23:30:00" "a" eq_refl H).
Defined.

(** ** The answer of the historical endpoint *)

Section Answer.





End Answer.


